(** * Water-body detection from satellite imagery: a Rocq model

    A shallow embedding of the two functions of
    [Water_Body_Detection_from_Satellite_Imagery.ipynb]:

    - [create_false_color_composite] (bands 7-3-2 stacked and rescaled to
      8 bits);
    - [highlight_water_bodies] (NDWI, thresholding, percentile stretch and
      painting of the water mask).

    Samples are IEEE-754 binary floating-point numbers, modelled with the
    [spec_float] type of the standard library, whose operations are
    parameterised by the precision and the maximal exponent of the format.
    Python exceptions are explicit: a computation returns a [result].
    The arrays that the notebook copies and updates in place live in a
    store of array objects. *)

From Stdlib Require Import ZArith QArith Qround Qabs Lia.
From Stdlib Require Import Floats.SpecFloat.
From stdpp Require Import base option list gmap.

Local Open Scope Z_scope.

(** ** NumPy scalars *)

(** A floating dtype: [prec] bits of mantissa, exponent bound [emax]. *)
Record dtype := Dtype { prec : Z; emax : Z }.

Definition float32 : dtype := Dtype 24 128.
Definition float64 : dtype := Dtype 53 1024.

Module Np.

Definition scalar := spec_float.

(** The literal [0.0]. *)
Definition zero : scalar := S754_zero false.

(** An integer literal such as [255] used at dtype [dt]. *)
Definition of_int (dt : dtype) (n : Z) : scalar :=
  binary_normalize (prec dt) (emax dt) n 0 false.

(** [x.astype(dt)]: rounding of a value into the format [dt]. *)
Definition astype (dt : dtype) (x : scalar) : scalar :=
  match x with
  | S754_finite s m e => binary_round (prec dt) (emax dt) s m e
  | _ => x
  end.

Definition add (dt : dtype) : scalar -> scalar -> scalar :=
  SFadd (prec dt) (emax dt).
Definition subtract (dt : dtype) : scalar -> scalar -> scalar :=
  SFsub (prec dt) (emax dt).
Definition multiply (dt : dtype) : scalar -> scalar -> scalar :=
  SFmul (prec dt) (emax dt).
Definition divide (dt : dtype) : scalar -> scalar -> scalar :=
  SFdiv (prec dt) (emax dt).

Definition isnan (x : scalar) : bool :=
  match x with S754_nan => true | _ => false end.

(** Comparisons; every comparison with NaN is false, except [!=]. *)
Definition less (x y : scalar) : bool := SFltb x y.
Definition greater (x y : scalar) : bool := SFltb y x.
Definition equal (x y : scalar) : bool := SFeqb x y.
Definition not_equal (x y : scalar) : bool := negb (SFeqb x y).

(** [np.minimum] and [np.maximum] keep a NaN first operand and return a
    NaN second operand, since no comparison with it holds. *)
Definition minimum (a b : scalar) : scalar :=
  if less a b || isnan a then a else b.
Definition maximum (a b : scalar) : scalar :=
  if greater a b || isnan a then a else b.

(** [np.clip(x, lo, hi)]. *)
Definition clip (x lo hi : scalar) : scalar :=
  minimum (maximum x lo) hi.

(** Integer part of a finite value, rounding toward zero. *)
Definition trunc (x : scalar) : option Z :=
  match x with
  | S754_zero _ => Some 0
  | S754_finite s m e =>
      let n := Z.shiftl (Zpos m) e in Some (if s then - n else n)
  | _ => None
  end.

(** [x.astype(np.uint8)]: the C conversion of a floating value to an
    8-bit unsigned integer.  It truncates toward zero; when the truncated
    value is not in [0, 255], or [x] is NaN or infinite, C leaves the
    result to the platform: [cast_invalid] stands for that result. *)
Definition astype_uint8 (cast_invalid : scalar -> Z) (x : scalar) : Z :=
  match trunc x with
  | Some n => if (0 <=? n) && (n <? 256) then n else cast_invalid x mod 256
  | None => cast_invalid x mod 256
  end.

(** The rational number that a finite scalar denotes (0 for the others). *)
Definition to_Q (x : scalar) : Q :=
  match x with
  | S754_finite s m e =>
      let a := if s then Zneg m else Zpos m in
      match e with
      | Z0 => inject_Z a
      | Zpos p => inject_Z (a * Zpos (2 ^ p))
      | Zneg p => a # (2 ^ p)
      end
  | _ => 0%Q
  end.

Definition is_finite (x : scalar) : bool :=
  match x with S754_zero _ | S754_finite _ _ _ => true | _ => false end.

End Np.

(** ** Python exceptions *)

(** The exceptions that the two functions meet.  [GrError] is [gr.Error],
    the exception that the functions raise deliberately; its payload is the
    message.  The others come from the libraries. *)
Inductive exn : Type :=
| GrError (message : gr_message)
| RasterioIOError
| IndexError
| ValueError
with gr_message : Type :=
| (** "Please upload a TIFF file." *)
  PleaseUpload
| (** f"Input image has only {src.count} bands, ..." with the number of
      bands that the function requires *)
  HasOnlyBands (count required : nat)
| (** "Failed to read the file. Please ensure it's a valid GeoTIFF file." *)
  FailedToRead
| (** f"An unexpected error occurred: {e}" *)
  UnexpectedError (e : exn).

Inductive result (A : Type) : Type :=
| Returned (a : A)
| Raised (e : exn).
Arguments Returned {A} a.
Arguments Raised {A} e.

(** Sequencing: an exception raised by a statement ends the block. *)
#[global] Instance result_bind : MBind result := fun A B k c =>
  match c with
  | Returned a => k a
  | Raised e => Raised e
  end.

#[global] Instance result_fmap : FMap result := fun A B f c =>
  match c with
  | Returned a => Returned (f a)
  | Raised e => Raised e
  end.

(** The two [except] clauses that close the [try] block of both functions:
    [except RasterioIOError] first, then [except Exception as e], which
    catches every other exception, [gr.Error] included. *)
Definition try_except {A : Type} (body : result A) : result A :=
  match body with
  | Returned a => Returned a
  | Raised RasterioIOError => Raised (GrError FailedToRead)
  | Raised e => Raised (GrError (UnexpectedError e))
  end.

(** ** Arrays *)

(** A two-dimensional array, row by row. *)
Abbreviation array2 A := (list (list A)).

(** A pixel of a stacked [height x width x 3] array. *)
Definition pixel (A : Type) : Type := (A * A * A)%type.

Definition get2 {A : Type} (a : array2 A) (i j : nat) : option A :=
  row ← a !! i; row !! j.

Definition map2 {A B : Type} (f : A -> B) (a : array2 A) : array2 B :=
  fmap (M:=list) (fmap (M:=list) f) a.

Definition zip2 {A B C : Type} (f : A -> B -> C)
    (a : array2 A) (b : array2 B) : array2 C :=
  zip_with (zip_with f) a b.

Definition map_pixel {A B : Type} (f : A -> B) (p : pixel A) : pixel B :=
  let '(r, g, b) := p in (f r, f g, f b).

(** [np.dstack((r, g, b))]. *)
Definition dstack {A : Type} (r g b : array2 A) : array2 (pixel A) :=
  zip2 (fun rg b => (rg.1, rg.2, b)) (zip2 pair r g) b.

(** The samples of a stacked array in memory order. *)
Definition ravel3 {A : Type} (a : array2 (pixel A)) : list A :=
  concat ((fun p : pixel A => let '(r, g, b) := p in [r; g; b]) <$> concat a).

(** [a.min()] and [a.max()]: reductions with [np.minimum] and [np.maximum];
    NumPy raises [ValueError] on an array without elements. *)
Definition amin (l : list Np.scalar) : result Np.scalar :=
  match l with
  | [] => Raised ValueError
  | x :: l' => Returned (fold_left Np.minimum l' x)
  end.

Definition amax (l : list Np.scalar) : result Np.scalar :=
  match l with
  | [] => Raised ValueError
  | x :: l' => Returned (fold_left Np.maximum l' x)
  end.

(** [height x width] arrays. *)
Definition has_shape {A : Type} (height width : nat) (a : array2 A) : Prop :=
  length a = height /\ Forall (fun row => length row = width) a.

(** ** The raster *)

(** A band of samples, as [src.read] returns it. *)
Abbreviation ndarray := (array2 Np.scalar).

(** What [rasterio.open] yields: the bands, band 1 first.  [dtype_of] is the
    floating dtype in which NumPy computes with the samples that [read]
    returns: the dtype of the raster when it is float32 or float64, and
    float64 for a raster of unsigned integers, whose samples are given by
    their values (differences of such samples are exact, and NumPy
    evaluates their division at float64). *)
Record DatasetReader := {
  dtype_of : dtype;
  layers : list ndarray
}.

(** [src.count] *)
Definition count (src : DatasetReader) : nat := length (layers src).

(** [src.read(k)], [k] counted from 1. *)
Definition read (src : DatasetReader) (k : nat) : result ndarray :=
  match k with
  | O => Raised IndexError
  | S i =>
      match layers src !! i with
      | Some b => Returned b
      | None => Raised IndexError
      end
  end.

(** All bands of a raster have its height and width. *)
Definition raster_shape (height width : nat) (src : DatasetReader) : Prop :=
  Forall (has_shape height width) (layers src).

(** The [tiff_file] argument: [None], or a file that [rasterio.open] opens
    or fails to open. *)
Definition upload := option (result DatasetReader).

(** ** The platform *)

(** What the notebook leaves to NumPy and to the C compiler.

    - [percentile] is [np.percentile(samples, (2, 98))].  The dtype of its
      two results depends on the NumPy release, and so does the dtype,
      [stretch_dtype], at which NumPy then evaluates [np.clip], the
      subtractions and the division of [normalize_band]; the results are
      given at [stretch_dtype].  On an empty selection it raises or returns
      NaN, depending on the release.
    - [cast_invalid] is the result of [astype(np.uint8)] on a value that has
      no 8-bit truncation. *)
Record platform := {
  percentile : list Np.scalar -> result (Np.scalar * Np.scalar);
  stretch_dtype : dtype;
  cast_invalid : Np.scalar -> Z
}.

(** ** 8-bit images and the store of array objects *)

Abbreviation image := (array2 (pixel Z)).

(** [np.zeros_like(a, dtype=np.uint8)] *)
Definition zeros_like {A : Type} (a : array2 (pixel A)) : image :=
  map2 (fun _ => (0, 0, 0)) a.

(** A distinct shade of blue. *)
Definition highlight : pixel Z := (60, 130, 255).

Abbreviation mask := (array2 bool).

Definition mask_at (m : mask) (i j : nat) : bool :=
  match get2 m i j with Some true => true | _ => false end.

(** The content of [a] after [a[water_mask] = color]. *)
Definition paint (m : mask) (color : pixel Z) (a : image) : image :=
  imap (fun i row => imap (fun j px => if mask_at m i j then color else px) row) a.

(** Array objects are referred to by their location in a store; an
    assignment through one name is seen through every name of the same
    object. *)
Definition loc := positive.

Definition store_lookup (σ : gmap loc image) (l : loc) : image :=
  default [] (σ !! l).

(** A new array object holding [a]. *)
Definition new_array (σ : gmap loc image) (a : image) : loc * gmap loc image :=
  let l := fresh (dom σ) in (l, <[l := a]> σ).

(** [a.copy()] *)
Definition copy (σ : gmap loc image) (l : loc) : loc * gmap loc image :=
  new_array σ (store_lookup σ l).

(** [a[water_mask] = color], in place. *)
Definition setitem_mask (σ : gmap loc image) (l : loc) (m : mask)
    (color : pixel Z) : gmap loc image :=
  <[l := paint m color (store_lookup σ l)]> σ.

(** The last statements of [highlight_water_bodies]:
<<
    output_image = background_image.copy()
    output_image[water_mask] = [60, 130, 255]
>> *)
Definition apply_water_mask (σ : gmap loc image) (background_image : loc)
    (water_mask : mask) : loc * gmap loc image :=
  let '(output_image, σ1) := copy σ background_image in
  (output_image, setitem_mask σ1 output_image water_mask highlight).

(** ** [create_false_color_composite] *)

(** The value that the function writes for the sample [v] when the stacked
    array is not flat: [((v - min_val) / (max_val - min_val)) * 255]
    converted with [astype(np.uint8)]. *)
Definition rescale (dt : dtype) (cast_invalid : Np.scalar -> Z)
    (min_val max_val v : Np.scalar) : Z :=
  let normalized :=
    Np.divide dt (Np.subtract dt v min_val) (Np.subtract dt max_val min_val) in
  Np.astype_uint8 cast_invalid (Np.multiply dt normalized (Np.of_int dt 255)).

Definition create_false_color_composite (pf : platform) (tiff_file : upload)
    : result image :=
  match tiff_file with
  | None => Raised (GrError PleaseUpload)
  | Some opened =>
      try_except (
        src ← opened;
        if (count src <? 7)%nat
        then Raised (GrError (HasOnlyBands (count src) 7))
        else
          red ← read src 7;
          green ← read src 3;
          blue ← read src 2;
          let false_color_composite := dstack red green blue in
          min_val ← amin (ravel3 false_color_composite);
          max_val ← amax (ravel3 false_color_composite);
          if Np.equal max_val min_val
          then Returned (zeros_like false_color_composite)
          else
            let image_uint8 :=
              map2 (map_pixel
                      (rescale (dtype_of src) (cast_invalid pf) min_val max_val))
                   false_color_composite in
            Returned image_uint8)
  end.

(** ** [highlight_water_bodies] *)

(** [denominator = np.add(green, nir)], at float32. *)
Definition denominator (green nir : ndarray) : ndarray :=
  zip2 (Np.add float32) green nir.

(** One element of
    [np.divide(green - nir, denominator, out=zeros, where=(denominator != 0))]:
    the quotient where the condition holds, the content of [out] elsewhere. *)
Definition divide_where (numerator denom : Np.scalar) : Np.scalar :=
  if Np.not_equal denom Np.zero
  then Np.divide float32 numerator denom
  else Np.zero.

Definition ndwi (green nir : ndarray) : ndarray :=
  zip2 divide_where (zip2 (Np.subtract float32) green nir) (denominator green nir).

(** [water_mask = ndwi > ndwi_threshold].  The comparison is made at float32,
    the dtype of [ndwi]: [ndwi_threshold] is the threshold as a float32
    value. *)
Definition water_mask (ndwi : ndarray) (ndwi_threshold : Np.scalar) : mask :=
  map2 (fun v => Np.greater v ndwi_threshold) ndwi.

(** The inner function [normalize_band]. *)
Definition normalize_band (pf : platform) (band : ndarray) : result ndarray :=
  let dt := stretch_dtype pf in
  '(p2, p98) ← percentile pf
      (List.filter (fun v => Np.greater v Np.zero) (concat band));
  let stretched := map2 (fun v => Np.clip (Np.astype dt v) p2 p98) band in
  let scaled :=
    map2 (fun v => Np.divide dt (Np.subtract dt v p2) (Np.subtract dt p98 p2))
         stretched in
  Returned scaled.

(** [(natural_color_image * 255).astype(np.uint8)] *)
Definition to_uint8 (pf : platform) (natural_color_image : array2 (pixel Np.scalar))
    : image :=
  let dt := stretch_dtype pf in
  map2 (map_pixel (fun v =>
          Np.astype_uint8 (cast_invalid pf) (Np.multiply dt v (Np.of_int dt 255))))
       natural_color_image.

(** [src.read(k).astype(np.float32)] *)
Definition read_float32 (src : DatasetReader) (k : nat) : result ndarray :=
  map2 (Np.astype float32) <$> read src k.

Definition highlight_water_bodies (pf : platform) (tiff_file : upload)
    (ndwi_threshold : Np.scalar) : result image :=
  match tiff_file with
  | None => Raised (GrError PleaseUpload)
  | Some opened =>
      try_except (
        src ← opened;
        if (count src <? 5)%nat
        then Raised (GrError (HasOnlyBands (count src) 5))
        else
          red ← read_float32 src 4;
          green ← read_float32 src 3;
          blue ← read_float32 src 2;
          nir ← read_float32 src 5;
          let water_mask := water_mask (ndwi green nir) ndwi_threshold in
          r ← normalize_band pf red;
          g ← normalize_band pf green;
          b ← normalize_band pf blue;
          let natural_color_image := dstack r g b in
          let '(background_image, σ) :=
            new_array ∅ (to_uint8 pf natural_color_image) in
          let '(output_image, σ') :=
            apply_water_mask σ background_image water_mask in
          Returned (store_lookup σ' output_image))
  end.

(** ** A reference platform *)

(** The default method of [np.percentile], linear interpolation between the
    two order statistics around the position [(n - 1) * q / 100], with the
    position computed at float64 and the interpolation at [dt]. *)
Module Linear.

Fixpoint insert_sorted (x : Np.scalar) (l : list Np.scalar) : list Np.scalar :=
  match l with
  | [] => [x]
  | y :: l' => if SFleb x y then x :: l else y :: insert_sorted x l'
  end.

Definition sort (l : list Np.scalar) : list Np.scalar :=
  foldr insert_sorted [] l.

Definition lerp (dt : dtype) (a b t : Np.scalar) : Np.scalar :=
  let diff_b_a := Np.subtract dt b a in
  if SFleb (Np.divide float64 (Np.of_int float64 1) (Np.of_int float64 2)) t
  then Np.subtract dt b
         (Np.multiply dt diff_b_a (Np.subtract dt (Np.of_int dt 1) t))
  else Np.add dt a (Np.multiply dt diff_b_a t).

Definition quantile (dt : dtype) (sorted : list Np.scalar) (q : Z) : Np.scalar :=
  let n := length sorted in
  let virtual_index :=
    Np.multiply float64 (Np.of_int float64 (Z.of_nat n - 1))
      (Np.divide float64 (Np.of_int float64 q) (Np.of_int float64 100)) in
  let previous := Z.to_nat (default 0 (Np.trunc virtual_index)) in
  let gamma :=
    Np.astype dt
      (Np.subtract float64 virtual_index (Np.of_int float64 (Z.of_nat previous))) in
  lerp dt (default S754_nan (sorted !! previous))
          (default S754_nan (sorted !! Nat.min (S previous) (n - 1)))
          gamma.

Definition percentile_2_98 (dt : dtype) (samples : list Np.scalar)
    : result (Np.scalar * Np.scalar) :=
  match samples with
  | [] => Raised IndexError
  | _ =>
      let sorted := sort (Np.astype dt <$> samples) in
      Returned (quantile dt sorted 2, quantile dt sorted 98)
  end.

Definition numpy (dt : dtype) : platform :=
  {| percentile := percentile_2_98 dt;
     stretch_dtype := dt;
     cast_invalid := fun _ => 0 |}.

End Linear.

(** ** Vocabulary of the properties *)

(** The stacked array of [create_false_color_composite]. *)
Definition false_color_composite (src : DatasetReader)
    : result (array2 (pixel Np.scalar)) :=
  red ← read src 7;
  green ← read src 3;
  blue ← read src 2;
  Returned (dstack red green blue).

(** The index array of [highlight_water_bodies]. *)
Definition ndwi_of (src : DatasetReader) : result ndarray :=
  green ← read_float32 src 3;
  nir ← read_float32 src 5;
  Returned (ndwi green nir).

(** The background of [highlight_water_bodies], on which the threshold has
    no influence. *)
Definition background_image (pf : platform) (src : DatasetReader) : result image :=
  red ← read_float32 src 4;
  green ← read_float32 src 3;
  blue ← read_float32 src 2;
  r ← normalize_band pf red;
  g ← normalize_band pf green;
  b ← normalize_band pf blue;
  Returned (to_uint8 pf (dstack r g b)).

(** A [height x width] array filled with [x]. *)
Definition full {A : Type} (height width : nat) (x : A) : array2 A :=
  replicate height (replicate width x).

(** The nearest integer (a tie goes up). *)
Definition round_nearest (q : Q) : Z := Qfloor (q + (1 # 2)).

(** The rescaling that the specification words for the composite:
    [round((value - min) / (max - min) * 255)], on the numbers that the
    samples denote. *)
Definition rescale_rounded (min_val max_val v : Np.scalar) : Z :=
  round_nearest ((Np.to_Q v - Np.to_Q min_val)
          / (Np.to_Q max_val - Np.to_Q min_val) * 255)%Q.

(** The error kinds of the specification that the two functions can
    report, and the kind of each message: the message about the number of
    bands is the insufficient-bands error, the message of the
    [except RasterioIOError] clause the read error, and the message of the
    [except Exception] clause, which wraps its cause, the unclassified
    error.  The message about the missing upload is outside the taxonomy,
    which starts from a raster. *)
Inductive error_kind : Type :=
| RasterReadError
| InsufficientBandsError (actual required : nat)
| UnclassifiedError (cause : exn).

Definition classify (message : gr_message) : option error_kind :=
  match message with
  | PleaseUpload => None
  | HasOnlyBands actual required => Some (InsufficientBandsError actual required)
  | FailedToRead => Some RasterReadError
  | UnexpectedError cause => Some (UnclassifiedError cause)
  end.

(** The Python literal [0.2], as the float32 value that NumPy compares
    with the index. *)
Definition threshold_0_2 : Np.scalar :=
  Np.astype float32
    (Np.divide float64 (Np.of_int float64 2) (Np.of_int float64 10)).

(** ** Sample rasters *)

Module Sample.

(** The synthetic raster of the end-to-end scenario: five 10 x 10 bands,
    bands 2, 3 and 4 constant at 100 and band 5 at 50. *)
Definition scenario : DatasetReader :=
  {| dtype_of := float32;
     layers := [full 10 10 (Np.of_int float32 7);
                full 10 10 (Np.of_int float32 100);
                full 10 10 (Np.of_int float32 100);
                full 10 10 (Np.of_int float32 100);
                full 10 10 (Np.of_int float32 50)] |}.

(** A raster with three bands only. *)
Definition three_bands : DatasetReader :=
  {| dtype_of := float32;
     layers := [full 2 2 (Np.of_int float32 1);
                full 2 2 (Np.of_int float32 2);
                full 2 2 (Np.of_int float32 3)] |}.

(** Seven 2 x 2 bands, all constant at 5. *)
Definition flat : DatasetReader :=
  {| dtype_of := float32;
     layers := replicate 7 (full 2 2 (Np.of_int float32 5)) |}.

(** Seven bands of one pixel, as a raster of unsigned integers has them:
    band 7 is 0, band 3 is 1 and band 2 is 4. *)
Definition graded : DatasetReader :=
  {| dtype_of := float64;
     layers := [[[Np.of_int float64 0]]; [[Np.of_int float64 4]];
                [[Np.of_int float64 1]]; [[Np.of_int float64 0]];
                [[Np.of_int float64 0]]; [[Np.of_int float64 0]];
                [[Np.of_int float64 0]]] |}.

(** Five bands of two pixels; green and NIR are both 0 at the first. *)
Definition shore : DatasetReader :=
  {| dtype_of := float32;
     layers := [[[Np.of_int float32 1; Np.of_int float32 1]];
                [[Np.of_int float32 1; Np.of_int float32 2]];
                [[Np.of_int float32 0; Np.of_int float32 7]];
                [[Np.of_int float32 5; Np.of_int float32 9]];
                [[Np.of_int float32 0; Np.of_int float32 3]]] |}.

End Sample.

(** ** Vocabulary of the further properties *)

(** The channels of a pixel, red first. *)
Definition channels {A : Type} (p : pixel A) : list A :=
  let '(r, g, b) := p in [r; g; b].

(** The values of an 8-bit unsigned integer. *)
Definition uint8 (n : Z) : Prop := 0 <= n <= 255.

(** A [height x width x 3] array of 8-bit values. *)
Definition uint8_image (height width : nat) (a : image) : Prop :=
  has_shape height width a
  /\ forall i j p, get2 a i j = Some p -> Forall uint8 (channels p).

(** [band[band > 0]], the selection whose percentiles [normalize_band]
    takes. *)
Definition positive_samples (band : ndarray) : list Np.scalar :=
  List.filter (fun v => Np.greater v Np.zero) (concat band).

(** ** More sample rasters *)

Module Edge.

(** Seven bands without a sample. *)
Definition empty : DatasetReader :=
  {| dtype_of := float32; layers := replicate 7 [] |}.

(** [Sample.graded] with another first band and an eighth band. *)
Definition graded_other : DatasetReader :=
  {| dtype_of := float64;
     layers := [[[Np.of_int float64 9]]; [[Np.of_int float64 4]];
                [[Np.of_int float64 1]]; [[Np.of_int float64 0]];
                [[Np.of_int float64 0]]; [[Np.of_int float64 0]];
                [[Np.of_int float64 0]]; [[Np.of_int float64 3]]] |}.

(** [Sample.shore] with another first band and a sixth band. *)
Definition shore_other : DatasetReader :=
  {| dtype_of := float32;
     layers := [[[Np.of_int float32 8; Np.of_int float32 6]];
                [[Np.of_int float32 1; Np.of_int float32 2]];
                [[Np.of_int float32 0; Np.of_int float32 7]];
                [[Np.of_int float32 5; Np.of_int float32 9]];
                [[Np.of_int float32 0; Np.of_int float32 3]];
                [[Np.of_int float32 4; Np.of_int float32 4]]] |}.

(** Five bands of two pixels whose band 4 has no positive sample. *)
Definition dark : DatasetReader :=
  {| dtype_of := float32;
     layers := [[[Np.of_int float32 1; Np.of_int float32 1]];
                [[Np.of_int float32 1; Np.of_int float32 2]];
                [[Np.of_int float32 0; Np.of_int float32 7]];
                [[Np.of_int float32 0; Np.of_int float32 0]];
                [[Np.of_int float32 0; Np.of_int float32 3]]] |}.

End Edge.

(** * Properties *)

(** ** Order of the scalars *)

Section Order.
Implicit Types x y z : Np.scalar.

(** Case analysis on the comparisons of exponents and mantissas that
    [SFcompare] makes. *)
Ltac compare_cases :=
  repeat match goal with
  | H : context [Pos.compare_cont Eq ?a ?b] |- _ =>
      change (Pos.compare_cont Eq a b) with (a ?= b)%positive in H;
      destruct (Pos.compare_spec a b); simplify_eq/=
  | |- context [Pos.compare_cont Eq ?a ?b] =>
      change (Pos.compare_cont Eq a b) with (a ?= b)%positive;
      destruct (Pos.compare_spec a b); simplify_eq/=
  | H : context [(?a ?= ?b)%Z] |- _ =>
      destruct (Z.compare_spec a b); simplify_eq/=
  | |- context [(?a ?= ?b)%Z] =>
      destruct (Z.compare_spec a b); simplify_eq/=
  end.

Ltac by_cases := simpl in *; compare_cases; try done; try lia.

Lemma compare_swap x y :
  SFcompare y x = CompOpp <$> SFcompare x y.
Proof.
  destruct x as [[]|[]| |[] mx ex], y as [[]|[]| |[] my ey]; by_cases.
Qed.

Lemma compare_trans_lt x y z :
  SFcompare x y = Some Lt → SFcompare y z = Some Lt → SFcompare x z = Some Lt.
Proof.
  destruct x as [[]|[]| |[] mx ex], y as [[]|[]| |[] my ey],
    z as [[]|[]| |[] mz ez]; intros; by_cases.
Qed.

Lemma compare_eq_lt x y z :
  SFcompare x y = Some Eq → SFcompare y z = Some Lt → SFcompare x z = Some Lt.
Proof.
  destruct x as [[]|[]| |[] mx ex], y as [[]|[]| |[] my ey],
    z as [[]|[]| |[] mz ez]; intros; by_cases.
Qed.

Lemma compare_lt_eq x y z :
  SFcompare x y = Some Lt → SFcompare y z = Some Eq → SFcompare x z = Some Lt.
Proof.
  destruct x as [[]|[]| |[] mx ex], y as [[]|[]| |[] my ey],
    z as [[]|[]| |[] mz ez]; intros; by_cases.
Qed.

Lemma leb_ltb_trans x y z :
  SFleb x y = true → SFltb y z = true → SFltb x z = true.
Proof.
  unfold SFleb, SFltb. intros Hxy Hyz.
  destruct (SFcompare x y) as [[]|] eqn:Exy; try done;
    destruct (SFcompare y z) as [[]|] eqn:Eyz; try done.
  - by rewrite (compare_eq_lt _ _ _ Exy Eyz).
  - by rewrite (compare_trans_lt _ _ _ Exy Eyz).
Qed.
End Order.

(** ** Arrays *)

Section Arrays.
Context {A B C : Type}.

Lemma get2_map2 (f : A → B) (a : array2 A) i j :
  get2 (map2 f a) i j = f <$> get2 a i j.
Proof.
  unfold get2, map2. rewrite list_lookup_fmap.
  destruct (a !! i) as [row|]; simpl; [|done].
  by rewrite list_lookup_fmap.
Qed.

Lemma get2_zip2 (f : A → B → C) (a : array2 A) (b : array2 B) i j :
  get2 (zip2 f a b) i j = (x ← get2 a i j; y ← get2 b i j; Some (f x y)).
Proof.
  unfold get2, zip2. rewrite lookup_zip_with.
  destruct (a !! i) as [ra|]; simpl; [|done].
  destruct (b !! i) as [rb|]; simpl.
  - by rewrite lookup_zip_with.
  - by destruct (ra !! j).
Qed.

Lemma get2_is_Some (a : array2 A) h w i j :
  has_shape h w a → (i < h)%nat → (j < w)%nat → is_Some (get2 a i j).
Proof.
  intros [Hh Hw] Hi Hj. unfold get2.
  destruct (lookup_lt_is_Some_2 a i) as [row Hrow]; [lia|].
  rewrite Hrow. simpl. apply lookup_lt_is_Some_2.
  rewrite Forall_forall in Hw.
  rewrite (Hw row); [done|]. by eapply list_elem_of_lookup_2.
Qed.

Lemma get2_lt (a : array2 A) h w i j x :
  has_shape h w a → get2 a i j = Some x → (i < h)%nat ∧ (j < w)%nat.
Proof.
  intros [Hh Hw]. unfold get2.
  destruct (a !! i) as [row|] eqn:Hrow; simpl; [|done].
  intros Hx. split.
  - rewrite <- Hh. by eapply lookup_lt_Some.
  - rewrite Forall_forall in Hw. rewrite <- (Hw row).
    + by eapply lookup_lt_Some.
    + by eapply list_elem_of_lookup_2.
Qed.

Lemma has_shape_map2 (f : A → B) (a : array2 A) h w :
  has_shape h w a → has_shape h w (map2 f a).
Proof.
  intros [Hh Hw]. split.
  - unfold map2. by rewrite length_fmap.
  - unfold map2. rewrite Forall_fmap. eapply Forall_impl; [exact Hw|].
    intros row Hrow. simpl. by rewrite length_fmap.
Qed.

Lemma has_shape_zip2 (f : A → B → C) (a : array2 A) (b : array2 B) h w :
  has_shape h w a → has_shape h w b → has_shape h w (zip2 f a b).
Proof.
  intros [Ha Hwa] [Hb Hwb]. split.
  - unfold zip2. rewrite length_zip_with. lia.
  - unfold zip2. rewrite Forall_forall. intros row Hrow.
    apply list_elem_of_lookup_1 in Hrow as [i Hi].
    rewrite lookup_zip_with in Hi.
    destruct (a !! i) as [ra|] eqn:Era; simpl in Hi; [|done].
    destruct (b !! i) as [rb|] eqn:Erb; simpl in Hi; [|done].
    simplify_eq. rewrite length_zip_with.
    rewrite Forall_forall in Hwa. rewrite Forall_forall in Hwb.
    rewrite (Hwa ra), (Hwb rb); [lia| |]; by eapply list_elem_of_lookup_2.
Qed.

Lemma has_shape_replicate (x : A) h w :
  has_shape h w (replicate h (replicate w x)).
Proof.
  split; [by rewrite length_replicate|].
  apply Forall_replicate. by rewrite length_replicate.
Qed.

Lemma map2_const (a : array2 A) (y : B) h w :
  has_shape h w a → map2 (λ _, y) a = replicate h (replicate w y).
Proof.
  intros [Hh Hw]. subst h. unfold map2.
  induction a as [|row a IH]; [done|].
  apply Forall_cons in Hw as [Hrow Hw]. simpl. f_equal; [|by apply IH].
  subst w. clear. induction row; simpl; by f_equal.
Qed.
End Arrays.

Lemma has_shape_dstack {A} (r g b : array2 A) h w :
  has_shape h w r → has_shape h w g → has_shape h w b →
  has_shape h w (dstack r g b).
Proof. intros. unfold dstack. by repeat apply has_shape_zip2. Qed.

Lemma get2_paint (m : mask) color (a : image) i j :
  get2 (paint m color a) i j
  = (λ px, if mask_at m i j then color else px) <$> get2 a i j.
Proof.
  unfold get2, paint. rewrite list_lookup_imap.
  destruct (a !! i) as [row|]; simpl; [|done].
  by rewrite list_lookup_imap.
Qed.

Lemma paint_all (m : mask) color (a : image) h w :
  has_shape h w a →
  (∀ i j, (i < h)%nat → (j < w)%nat → mask_at m i j = true) →
  paint m color a = replicate h (replicate w color).
Proof.
  intros Ha Hm. apply list_eq. intros i.
  destruct (decide (i < h)%nat) as [Hi|Hi].
  - rewrite lookup_replicate_2 by done.
    destruct Ha as [Hh Hw]. unfold paint. rewrite list_lookup_imap.
    destruct (lookup_lt_is_Some_2 a i) as [row Hrow]; [lia|].
    rewrite Hrow. simpl. f_equal.
    assert (length row = w) as Hlen.
    { rewrite Forall_forall in Hw. apply Hw. by eapply list_elem_of_lookup_2. }
    apply list_eq. intros j. rewrite list_lookup_imap.
    destruct (decide (j < w)%nat) as [Hj|Hj].
    + rewrite lookup_replicate_2 by done.
      destruct (lookup_lt_is_Some_2 row j) as [px Hpx]; [lia|].
      rewrite Hpx. simpl. by rewrite Hm.
    + rewrite (lookup_ge_None_2 row j) by lia. simpl. symmetry.
      apply lookup_replicate_None. lia.
  - transitivity (@None (list (pixel Z))).
    2:{ symmetry. apply lookup_replicate_None. lia. }
    apply lookup_ge_None_2. unfold paint. rewrite length_imap.
    destruct Ha. lia.
Qed.

(** ** The index and the mask *)

Lemma get2_ndwi (green nir : ndarray) i j :
  get2 (ndwi green nir) i j
  = (g ← get2 green i j; n ← get2 nir i j;
     Some (divide_where (Np.subtract float32 g n) (Np.add float32 g n))).
Proof.
  unfold ndwi, denominator. rewrite !get2_zip2.
  destruct (get2 green i j), (get2 nir i j); done.
Qed.

Lemma has_shape_ndwi (green nir : ndarray) h w :
  has_shape h w green → has_shape h w nir → has_shape h w (ndwi green nir).
Proof. intros. unfold ndwi, denominator. by repeat apply has_shape_zip2. Qed.

Lemma mask_at_water_mask (nd : ndarray) t i j :
  mask_at (water_mask nd t) i j
  = match get2 nd i j with Some v => Np.greater v t | None => false end.
Proof.
  unfold mask_at, water_mask. rewrite get2_map2.
  destruct (get2 nd i j) as [v|]; simpl; [|done]. by destruct (Np.greater v t).
Qed.

(** Claim C1.  For bands [green] and [nir] of the same shape, the index has
    a value at every pixel.  Where the float32 sum [green + nir] compares
    equal to 0, that value is exactly [0.0], whatever the two samples are;
    at every other pixel it is the float32 quotient
    [(green - nir) / (green + nir)]. *)
Theorem ndwi_zero_denominator (green nir : ndarray) h w i j :
  has_shape h w green → has_shape h w nir → (i < h)%nat → (j < w)%nat →
  ∃ g n, get2 green i j = Some g ∧ get2 nir i j = Some n ∧
    (Np.equal (Np.add float32 g n) Np.zero = true →
       get2 (ndwi green nir) i j = Some (S754_zero false)) ∧
    (Np.equal (Np.add float32 g n) Np.zero = false →
       get2 (ndwi green nir) i j
       = Some (Np.divide float32 (Np.subtract float32 g n) (Np.add float32 g n))).
Proof.
  intros Hg Hn Hi Hj.
  destruct (get2_is_Some green h w i j Hg Hi Hj) as [g Eg].
  destruct (get2_is_Some nir h w i j Hn Hi Hj) as [n En].
  exists g, n. rewrite get2_ndwi, Eg, En. simpl.
  unfold divide_where, Np.not_equal, Np.equal.
  repeat split; try done; intros ->; done.
Qed.

Lemma ndwi_zero_denominator_witness :
  let green := [[Np.of_int float32 5; Np.of_int float32 0]] in
  let nir := [[Np.of_int float32 (-5); Np.of_int float32 0]] in
  get2 (ndwi green nir) 0 0 = Some (S754_zero false)
  ∧ get2 (ndwi green nir) 0 1 = Some (S754_zero false).
Proof.
  intros green nir.
  split.
  - destruct (ndwi_zero_denominator green nir 1 2 0 0) as (g & n & Hg & Hn & Hz & _);
      [split; [done | by repeat constructor] ..| lia | lia |].
    injection Hg as <-. injection Hn as <-. apply Hz. reflexivity.
  - destruct (ndwi_zero_denominator green nir 1 2 0 1) as (g & n & Hg & Hn & Hz & _);
      [split; [done | by repeat constructor] ..| lia | lia |].
    injection Hg as <-. injection Hn as <-. apply Hz. reflexivity.
Defined.

(** Claim C2.  A pixel of the index belongs to the water mask if and only
    if its value is strictly greater than the threshold; a pixel whose value
    equals the threshold is not in the mask. *)
Theorem water_mask_strict (nd : ndarray) (ndwi_threshold : Np.scalar) i j v :
  get2 nd i j = Some v →
  (mask_at (water_mask nd ndwi_threshold) i j = true
     ↔ SFcompare v ndwi_threshold = Some Gt)
  ∧ (SFcompare v ndwi_threshold = Some Eq →
       mask_at (water_mask nd ndwi_threshold) i j = false).
Proof.
  intros Hv. rewrite mask_at_water_mask, Hv.
  unfold Np.greater, SFltb. rewrite (compare_swap v ndwi_threshold).
  destruct (SFcompare v ndwi_threshold) as [[]|]; simpl; split; try done.
  all: split; done.
Qed.

(** ** The store *)

Lemma apply_water_mask_eq (σ : gmap loc image) background_image water_mask :
  apply_water_mask σ background_image water_mask
  = let output_image := fresh (dom σ) in
    (output_image,
     <[output_image := paint water_mask highlight (store_lookup σ background_image)]> σ).
Proof.
  unfold apply_water_mask, copy, new_array, setitem_mask, store_lookup. simpl.
  rewrite lookup_insert_eq. simpl. by rewrite insert_insert_eq.
Qed.

(** Claim C3.  Compositing the mask over a background image yields a new
    array object: its location was free in the store, every object that the
    store held before, the background among them, is unchanged, and the new
    image has the pixels of the background, with (60, 130, 255) in the place
    of each pixel where the mask is true and the pixel of the background
    where it is false. *)
Theorem apply_water_mask_spec (σ : gmap loc image) background_image
    (water_mask : mask) (a : image) :
  σ !! background_image = Some a →
  ∃ output_image σ' a',
    apply_water_mask σ background_image water_mask = (output_image, σ')
    ∧ σ !! output_image = None
    ∧ σ' !! output_image = Some a'
    ∧ (∀ l, l ≠ output_image → σ' !! l = σ !! l)
    ∧ σ' !! background_image = Some a
    ∧ ∀ i j,
        get2 a' i j
        = (λ px, if mask_at water_mask i j then (60, 130, 255) else px)
            <$> get2 a i j.
Proof.
  intros Ha. rewrite apply_water_mask_eq. simpl.
  assert (σ !! fresh (dom σ) = None) as Hfresh.
  { apply not_elem_of_dom. apply is_fresh. }
  eexists _, _, _. split; [done|]. split; [done|].
  split; [apply lookup_insert_eq|].
  split; [intros l Hl; by rewrite lookup_insert_ne|].
  split.
  - rewrite lookup_insert_ne; [done|]. intros Heq. congruence.
  - intros i j. unfold store_lookup. rewrite Ha. simpl.
    by rewrite get2_paint.
Qed.

(** ** The degenerate stretch *)

Section Stretch.
Variable dt : dtype.
Implicit Types v : Np.scalar.

Lemma subtract_self_finite s m e :
  Np.subtract dt (S754_finite s m e) (S754_finite s m e) = S754_zero false.
Proof.
  unfold Np.subtract, SFsub. rewrite Z.min_id.
  unfold shl_align.
  assert (e - e = 0) as -> by lia. simpl.
  assert (∀ a, a - a = 0) as -> by (intros; lia). done.
Qed.

Lemma equal_cases (p98 p2 : Np.scalar) :
  Np.equal p98 p2 = true →
  (∃ s s', p98 = S754_zero s ∧ p2 = S754_zero s')
  ∨ (∃ s, p98 = S754_infinity s ∧ p2 = S754_infinity s)
  ∨ (∃ s m e, p98 = S754_finite s m e ∧ p2 = S754_finite s m e).
Proof.
  unfold Np.equal, SFeqb.
  destruct p98 as [[]|[]| |[] m e], p2 as [[]|[]| |[] m' e'];
    simpl; intros H; try discriminate H;
    try (left; by eexists _, _); try (right; left; by eexists).
  all: right; right; eexists _, m, e; split; [done|].
  all: destruct (Z.compare_spec e e'); try discriminate H; subst.
  all: change (Pos.compare_cont Eq m m') with (m ?= m')%positive in H.
  all: destruct (Pos.compare_spec m m'); try discriminate H; by subst.
Qed.

(** Clipping to an interval whose bounds are equal yields the upper bound,
    unless the sample is NaN. *)
Lemma clip_degenerate v (p2 p98 : Np.scalar) :
  Np.equal p98 p2 = true →
  Np.clip v p2 p98 = p98 ∨ Np.clip v p2 p98 = S754_nan.
Proof.
  intros Heq. unfold Np.clip, Np.maximum, Np.minimum, Np.greater, Np.less.
  destruct (Np.isnan v) eqn:Hnan.
  { destruct v; try done. right. by destruct p2, p98. }
  rewrite orb_false_r.
  assert (Np.isnan p2 = false) as Hp2.
  { destruct p2; try done. unfold Np.equal, SFeqb in Heq. by destruct p98. }
  assert (SFcompare p98 p2 = Some Eq) as Hc.
  { unfold Np.equal, SFeqb in Heq.
    by destruct (SFcompare p98 p2) as [[]|]. }
  assert (SFcompare p2 p98 = Some Eq) as Hc'.
  { rewrite (compare_swap p98 p2), Hc. done. }
  destruct (SFltb p2 v) eqn:Hlt.
  - rewrite Hnan, orb_false_r.
    assert (SFltb v p98 = false) as ->; [|by left].
    unfold SFltb in *.
    destruct (SFcompare v p98) as [[]|] eqn:Hv; try done.
    destruct (SFcompare p2 v) as [[]|] eqn:Hv'; try done.
    pose proof (compare_lt_eq _ _ _ Hv Hc) as H1.
    rewrite (compare_swap v p2), H1 in Hv'. done.
  - rewrite Hp2, orb_false_r.
    assert (SFltb p2 p98 = false) as ->; [|by left].
    unfold SFltb. by rewrite Hc'.
Qed.

(** The quotient of [normalize_band] when [p98 == p2]. *)
Lemma stretch_degenerate v (p2 p98 : Np.scalar) :
  Np.equal p98 p2 = true →
  Np.divide dt (Np.subtract dt (Np.clip v p2 p98) p2) (Np.subtract dt p98 p2)
  = S754_nan.
Proof.
  intros Heq.
  destruct (clip_degenerate v p2 p98 Heq) as [-> | ->].
  - destruct (equal_cases _ _ Heq)
      as [(s & s' & -> & ->)|[(s & -> & ->)|(s & m & e & -> & ->)]].
    + by destruct s, s'.
    + by destruct s.
    + by rewrite subtract_self_finite.
  - unfold Np.divide, Np.subtract. by destruct p2.
Qed.
End Stretch.

Lemma normalize_band_degenerate (pf : platform) (band : ndarray) p2 p98 :
  percentile pf (List.filter (λ v, Np.greater v Np.zero) (concat band))
    = Returned (p2, p98) →
  Np.equal p98 p2 = true →
  normalize_band pf band = Returned (map2 (λ _, S754_nan) band).
Proof.
  intros Hp Heq. unfold normalize_band. rewrite Hp. simpl. f_equal.
  unfold map2. rewrite <- !list_fmap_compose.
  apply list_fmap_ext. intros _ row _. simpl.
  rewrite <- list_fmap_compose.
  apply list_fmap_ext. intros _ v _. simpl.
  by apply stretch_degenerate.
Qed.

(** Claim C7, which the code does not meet.  When the two percentiles
    compare equal, [normalize_band] has no guard: it performs the division
    [(stretched - p2) / (p98 - p2)], whose divisor is zero, and every sample
    of the band that it returns is NaN, not zero. *)
Theorem normalize_band_unguarded (pf : platform) (band : ndarray) p2 p98 :
  percentile pf (List.filter (λ v, Np.greater v Np.zero) (concat band))
    = Returned (p2, p98) →
  Np.equal p98 p2 = true →
  ∃ scaled, normalize_band pf band = Returned scaled
    ∧ ∀ i j, is_Some (get2 band i j) → get2 scaled i j = Some S754_nan.
Proof.
  intros Hp Heq. eexists. split; [by eapply normalize_band_degenerate|].
  intros i j [v Hv]. by rewrite get2_map2, Hv.
Qed.

(** ** The water-detection pipeline *)

Lemma read_shape (src : DatasetReader) h w k b :
  raster_shape h w src → read src k = Returned b → has_shape h w b.
Proof.
  intros Hsrc. unfold read. destruct k as [|i]; [done|].
  destruct (layers src !! i) as [b'|] eqn:Hb; [|done].
  intros [= <-]. unfold raster_shape in Hsrc. rewrite Forall_forall in Hsrc.
  apply Hsrc. by eapply list_elem_of_lookup_2.
Qed.

Lemma read_float32_shape (src : DatasetReader) h w k b :
  raster_shape h w src → read_float32 src k = Returned b → has_shape h w b.
Proof.
  intros Hsrc. unfold read_float32.
  destruct (read src k) as [b'|e] eqn:Hb; [|done].
  intros [= <-]. apply has_shape_map2. by eapply read_shape.
Qed.

Lemma normalize_band_shape (pf : platform) (band scaled : ndarray) h w :
  has_shape h w band → normalize_band pf band = Returned scaled →
  has_shape h w scaled.
Proof.
  intros Hb. unfold normalize_band.
  destruct (percentile pf _) as [[p2 p98]|e]; [|done].
  intros [= <-]. by do 2 apply has_shape_map2.
Qed.

Lemma background_image_shape (pf : platform) (src : DatasetReader) h w bg :
  raster_shape h w src → background_image pf src = Returned bg →
  has_shape h w bg.
Proof.
  intros Hsrc. unfold background_image.
  destruct (read_float32 src 4) as [red|] eqn:Hred; [|done].
  destruct (read_float32 src 3) as [green|] eqn:Hgreen; [|done].
  destruct (read_float32 src 2) as [blue|] eqn:Hblue; [|done]. simpl.
  destruct (normalize_band pf red) as [r|] eqn:Hr; [|done].
  destruct (normalize_band pf green) as [g|] eqn:Hg; [|done].
  destruct (normalize_band pf blue) as [b|] eqn:Hb; [|done]. simpl.
  intros [= <-]. unfold to_uint8. apply has_shape_map2, has_shape_dstack.
  - eapply normalize_band_shape; [|done]. by eapply read_float32_shape.
  - eapply normalize_band_shape; [|done]. by eapply read_float32_shape.
  - eapply normalize_band_shape; [|done]. by eapply read_float32_shape.
Qed.

Lemma ndwi_of_shape (src : DatasetReader) h w nd :
  raster_shape h w src → ndwi_of src = Returned nd → has_shape h w nd.
Proof.
  intros Hsrc. unfold ndwi_of.
  destruct (read_float32 src 3) as [green|] eqn:Hgreen; [|done].
  destruct (read_float32 src 5) as [nir|] eqn:Hnir; [|done]. simpl.
  intros [= <-]. apply has_shape_ndwi; by eapply read_float32_shape.
Qed.

(** The image that leaves the store is the painted copy of the background. *)
Lemma painted_copy (a : image) (m : mask) :
  (let '(background_image, σ) := new_array ∅ a in
   let '(output_image, σ') := apply_water_mask σ background_image m in
   store_lookup σ' output_image)
  = paint m highlight a.
Proof.
  unfold new_array. cbv zeta. cbv iota beta.
  rewrite apply_water_mask_eq. cbv zeta. cbv iota beta.
  unfold store_lookup. by rewrite !lookup_insert_eq.
Qed.

(** With five bands or more, the function paints the background where the
    index exceeds the threshold. *)
Lemma highlight_water_bodies_eq (pf : platform) (src : DatasetReader) t :
  (5 ≤ count src)%nat →
  highlight_water_bodies pf (Some (Returned src)) t
  = try_except (bg ← background_image pf src;
                nd ← ndwi_of src;
                Returned (paint (water_mask nd t) highlight bg)).
Proof.
  intros Hcount. unfold highlight_water_bodies, background_image, ndwi_of.
  f_equal.
  cbn -[new_array apply_water_mask store_lookup normalize_band read_float32
        count Nat.ltb].
  destruct (Nat.ltb_spec (count src) 5) as [Hlt|_]; [lia|].
  unfold read_float32, read, count in *.
  destruct (layers src) as [|b1 [|b2 [|b3 [|b4 [|b5 rest]]]]];
    simpl in Hcount; try lia.
  cbn -[new_array apply_water_mask store_lookup normalize_band].
  destruct (normalize_band pf (map2 _ b4)) as [r|]; [|reflexivity].
  destruct (normalize_band pf (map2 _ b3)) as [g|]; [|reflexivity].
  destruct (normalize_band pf (map2 _ b2)) as [b|]; [|reflexivity].
  cbn -[new_array apply_water_mask store_lookup].
  rewrite <- (painted_copy (to_uint8 pf (dstack r g b))).
  by destruct (new_array _ _) as [l σ], (apply_water_mask _ _ _) as [o σ'].
Qed.

Lemma highlight_water_bodies_Returned (pf : platform) (src : DatasetReader) t bg nd :
  (5 ≤ count src)%nat →
  background_image pf src = Returned bg → ndwi_of src = Returned nd →
  highlight_water_bodies pf (Some (Returned src)) t
  = Returned (paint (water_mask nd t) highlight bg).
Proof.
  intros Hcount Hbg Hnd. rewrite highlight_water_bodies_eq by done.
  by rewrite Hbg, Hnd.
Qed.

Lemma highlight_water_bodies_inv (pf : platform) (src : DatasetReader) t img :
  highlight_water_bodies pf (Some (Returned src)) t = Returned img →
  (5 ≤ count src)%nat ∧
  ∃ bg nd, background_image pf src = Returned bg ∧ ndwi_of src = Returned nd
    ∧ img = paint (water_mask nd t) highlight bg.
Proof.
  intros Himg.
  assert (5 ≤ count src)%nat as Hcount.
  { unfold highlight_water_bodies in Himg. simpl in Himg.
    destruct (Nat.ltb_spec (count src) 5); [done|lia]. }
  split; [done|].
  rewrite highlight_water_bodies_eq in Himg by done.
  destruct (background_image pf src) as [bg|[]]; try done.
  destruct (ndwi_of src) as [nd|[]]; try done.
  simpl in Himg. injection Himg as <-. by eexists _, _.
Qed.

(** A pixel of the mask is painted in the output. *)
Lemma painted_pixel (bg : image) (nd : ndarray) t h w i j :
  has_shape h w bg → has_shape h w nd →
  mask_at (water_mask nd t) i j = true →
  get2 (paint (water_mask nd t) highlight bg) i j = Some highlight.
Proof.
  intros Hbg Hnd Hm. rewrite get2_paint, Hm.
  rewrite mask_at_water_mask in Hm.
  destruct (get2 nd i j) as [v|] eqn:Hv; [|done].
  destruct (get2_lt nd h w i j v Hnd Hv) as [Hi Hj].
  destruct (get2_is_Some bg h w i j Hbg Hi Hj) as [px ->]. done.
Qed.

(** Claim C6, which the code does not meet.  With fewer than 7 bands (5 for
    the water detection) the function raises the message about the number of
    bands inside its [try] block, where the [except Exception] clause
    catches it: the error that leaves the function is the message of that
    clause, "An unexpected error occurred", around the first one.  It still
    holds the true number of bands, but its kind is the unclassified error,
    not the insufficient-bands error. *)
Theorem insufficient_bands_wrapped (pf : platform) (src : DatasetReader) t :
  (count src < 7)%nat →
  let wrapped required :=
    UnexpectedError (GrError (HasOnlyBands (count src) required)) in
  create_false_color_composite pf (Some (Returned src))
    = Raised (GrError (wrapped 7%nat))
  ∧ ((count src < 5)%nat →
     highlight_water_bodies pf (Some (Returned src)) t
     = Raised (GrError (wrapped 5%nat)))
  ∧ ∀ required,
      classify (wrapped required)
      = Some (UnclassifiedError (GrError (HasOnlyBands (count src) required)))
      ∧ classify (wrapped required)
        ≠ Some (InsufficientBandsError (count src) required).
Proof.
  intros H7 wrapped. split; [|split].
  - unfold create_false_color_composite. simpl.
    destruct (Nat.ltb_spec (count src) 7); [done|lia].
  - intros H5. unfold highlight_water_bodies. simpl.
    destruct (Nat.ltb_spec (count src) 5); [done|lia].
  - intros required. split; done.
Qed.

(** Claim C9.  The water mask is antitone in the threshold: for a raster
    and thresholds [t1 <= t2], when the function returns an image at [t2], it
    returns one at [t1], and every pixel that is in the mask, and painted
    with the highlight color, at [t2] is in the mask, and painted, at [t1]. *)
Theorem water_mask_antitone (pf : platform) (src : DatasetReader) h w
    (t1 t2 : Np.scalar) (img2 : image) :
  raster_shape h w src →
  SFleb t1 t2 = true →
  highlight_water_bodies pf (Some (Returned src)) t2 = Returned img2 →
  ∃ nd img1,
    ndwi_of src = Returned nd
    ∧ highlight_water_bodies pf (Some (Returned src)) t1 = Returned img1
    ∧ ∀ i j, mask_at (water_mask nd t2) i j = true →
        get2 img2 i j = Some highlight
        ∧ mask_at (water_mask nd t1) i j = true
        ∧ get2 img1 i j = Some highlight.
Proof.
  intros Hsrc Hle Himg2.
  destruct (highlight_water_bodies_inv _ _ _ _ Himg2)
    as (Hcount & bg & nd & Hbg & Hnd & ->).
  exists nd, (paint (water_mask nd t1) highlight bg).
  split; [done|]. split; [by apply highlight_water_bodies_Returned|].
  intros i j Hm.
  pose proof (background_image_shape _ _ _ _ _ Hsrc Hbg) as Hsbg.
  pose proof (ndwi_of_shape _ _ _ _ Hsrc Hnd) as Hsnd.
  assert (mask_at (water_mask nd t1) i j = true) as Hm1.
  { rewrite mask_at_water_mask in *.
    destruct (get2 nd i j) as [v|]; [|done].
    unfold Np.greater in *. by eapply leb_ltb_trans. }
  split; [by apply (painted_pixel bg nd t2 h w)|].
  split; [done|]. by apply (painted_pixel bg nd t1 h w).
Qed.

(** Claim C10.  At a pixel where the float32 sum [green + nir] is 0 the
    index is [0.0].  For every strictly negative threshold that pixel is in
    the water mask and the function returns an image in which it has the
    highlight color; for a threshold that is 0 or more it is not in the
    mask. *)
Theorem zero_sum_pixel_is_water (pf : platform) (src : DatasetReader) h w
    (green nir : ndarray) (bg : image) (t : Np.scalar) i j g n :
  raster_shape h w src →
  read_float32 src 3 = Returned green →
  read_float32 src 5 = Returned nir →
  background_image pf src = Returned bg →
  get2 green i j = Some g → get2 nir i j = Some n →
  Np.equal (Np.add float32 g n) Np.zero = true →
  get2 (ndwi green nir) i j = Some (S754_zero false)
  ∧ (SFltb t Np.zero = true →
       mask_at (water_mask (ndwi green nir) t) i j = true
       ∧ ∃ img, highlight_water_bodies pf (Some (Returned src)) t = Returned img
           ∧ get2 img i j = Some highlight)
  ∧ (SFleb Np.zero t = true →
       mask_at (water_mask (ndwi green nir) t) i j = false).
Proof.
  intros Hsrc Hgreen Hnir Hbg Hg Hn Hzero.
  assert (get2 (ndwi green nir) i j = Some (S754_zero false)) as Hnd.
  { rewrite get2_ndwi, Hg, Hn. simpl. unfold divide_where, Np.not_equal.
    unfold Np.equal in Hzero. by rewrite Hzero. }
  assert (ndwi_of src = Returned (ndwi green nir)) as Hof.
  { unfold ndwi_of. by rewrite Hgreen, Hnir. }
  assert (5 ≤ count src)%nat as Hcount.
  { unfold read_float32, read in Hnir.
    destruct (layers src !! 4%nat) eqn:H4; [|done].
    apply lookup_lt_Some in H4. unfold count. lia. }
  split; [done|]. split.
  - intros Hlt.
    assert (mask_at (water_mask (ndwi green nir) t) i j = true) as Hm.
    { by rewrite mask_at_water_mask, Hnd. }
    split; [done|]. eexists. split.
    + by apply highlight_water_bodies_Returned.
    + apply (painted_pixel bg (ndwi green nir) t h w); [| |done].
      * by eapply background_image_shape.
      * by eapply ndwi_of_shape.
  - intros Hle. rewrite mask_at_water_mask, Hnd. unfold Np.greater.
    unfold SFleb, SFltb in *. change Np.zero with (S754_zero false) in Hle.
    rewrite (compare_swap (S754_zero false) t).
    destruct (SFcompare (S754_zero false) t) as [[]|]; done.
Qed.

(** ** The scenario of the constant raster *)

Lemma get2_full {A} h w (x : A) i j :
  (i < h)%nat → (j < w)%nat → get2 (full h w x) i j = Some x.
Proof.
  intros Hi Hj. unfold get2, full.
  rewrite lookup_replicate_2 by done. simpl. by rewrite lookup_replicate_2.
Qed.

Lemma normalize_band_Returned (pf : platform) (band : ndarray) :
  (∀ l, l ≠ [] → ∃ p, percentile pf l = Returned p) →
  List.filter (λ v, Np.greater v Np.zero) (concat band) ≠ [] →
  ∃ scaled, normalize_band pf band = Returned scaled.
Proof.
  intros Hperc Hne. destruct (Hperc _ Hne) as [[p2 p98] Hp].
  unfold normalize_band. rewrite Hp. by eexists.
Qed.

(** Claim C8.  For a raster of five 10 x 10 bands, with bands 2, 3 and 4
    constant at 100 and band 5 constant at 50, the index is at every pixel
    the float32 quotient [(100 - 50) / (100 + 50)], the float32 number
    nearest to 1/3, and with the threshold 0.2 the function returns the
    10 x 10 image whose every pixel is (60, 130, 255). *)
Theorem constant_raster_scenario (pf : platform) (src : DatasetReader)
    (band1 : ndarray) :
  (∀ l, l ≠ [] → ∃ p, percentile pf l = Returned p) →
  dtype_of src = float32 ∨ dtype_of src = float64 →
  layers src = [band1;
                full 10 10 (Np.of_int (dtype_of src) 100);
                full 10 10 (Np.of_int (dtype_of src) 100);
                full 10 10 (Np.of_int (dtype_of src) 100);
                full 10 10 (Np.of_int (dtype_of src) 50)] →
  ∃ x,
    x = Np.divide float32
          (Np.subtract float32 (Np.of_int float32 100) (Np.of_int float32 50))
          (Np.add float32 (Np.of_int float32 100) (Np.of_int float32 50))
    ∧ (Qabs (Np.to_Q x - (1 # 3)) <= 1 # 2 ^ 26)%Q
    ∧ ndwi_of src = Returned (full 10 10 x)
    ∧ highlight_water_bodies pf (Some (Returned src)) threshold_0_2
      = Returned (full 10 10 (60, 130, 255)).
Proof.
  intros Hperc Hdt Hlayers. eexists. split; [reflexivity|].
  split; [vm_compute; discriminate|].
  assert (read_float32 src 2 = Returned (full 10 10 (Np.of_int float32 100))
          ∧ read_float32 src 3 = Returned (full 10 10 (Np.of_int float32 100))
          ∧ read_float32 src 4 = Returned (full 10 10 (Np.of_int float32 100))
          ∧ read_float32 src 5 = Returned (full 10 10 (Np.of_int float32 50)))
    as (Hblue & Hgreen & Hred & Hnir).
  { unfold read_float32, read. rewrite Hlayers.
    destruct Hdt as [-> | ->]; vm_compute; done. }
  assert (ndwi_of src = Returned (full 10 10 (S754_finite false 11184811 (-25))))
    as Hnd.
  { unfold ndwi_of. rewrite Hgreen, Hnir. reflexivity. }
  split; [exact Hnd|].
  destruct (normalize_band_Returned pf (full 10 10 (Np.of_int float32 100)) Hperc)
    as [scaled Hscaled]; [by vm_compute|].
  assert (background_image pf src = Returned (to_uint8 pf (dstack scaled scaled scaled)))
    as Hbg.
  { unfold background_image. rewrite Hred, Hgreen, Hblue.
    cbn -[full Np.of_int normalize_band to_uint8]. by rewrite Hscaled. }
  assert (5 ≤ count src)%nat as Hcount.
  { unfold count. rewrite Hlayers. simpl. lia. }
  rewrite (highlight_water_bodies_Returned pf src threshold_0_2 _ _ Hcount Hbg Hnd).
  f_equal. apply paint_all.
  - unfold to_uint8. apply has_shape_map2.
    assert (has_shape 10 10 scaled) as Hs.
    { eapply normalize_band_shape; [|exact Hscaled]. apply has_shape_replicate. }
    by apply has_shape_dstack.
  - intros i j Hi Hj. rewrite mask_at_water_mask, get2_full by done. reflexivity.
Qed.

(** ** The false-color composite *)

Lemma false_color_composite_count (src : DatasetReader) a :
  false_color_composite src = Returned a → (7 ≤ count src)%nat.
Proof.
  unfold false_color_composite, read.
  destruct (layers src !! 6%nat) eqn:H6; [|done].
  intros _. apply lookup_lt_Some in H6. unfold count. lia.
Qed.

Lemma false_color_composite_shape (src : DatasetReader) h w a :
  raster_shape h w src → false_color_composite src = Returned a →
  has_shape h w a.
Proof.
  intros Hsrc. unfold false_color_composite.
  destruct (read src 7) as [red|] eqn:Hred; [|done].
  destruct (read src 3) as [green|] eqn:Hgreen; [|done].
  destruct (read src 2) as [blue|] eqn:Hblue; [|done]. simpl.
  intros [= <-]. apply has_shape_dstack; by eapply read_shape.
Qed.

Lemma create_false_color_composite_eq (pf : platform) (src : DatasetReader)
    a min_val max_val :
  false_color_composite src = Returned a →
  amin (ravel3 a) = Returned min_val →
  amax (ravel3 a) = Returned max_val →
  create_false_color_composite pf (Some (Returned src))
  = Returned
      (if Np.equal max_val min_val then zeros_like a
       else map2 (map_pixel (rescale (dtype_of src) (cast_invalid pf)
                               min_val max_val)) a).
Proof.
  intros Ha Hmin Hmax.
  pose proof (false_color_composite_count _ _ Ha) as Hcount.
  unfold create_false_color_composite, false_color_composite in *.
  cbn -[count Nat.ltb read amin amax].
  destruct (Nat.ltb_spec (count src) 7) as [Hlt|_]; [lia|].
  destruct (read src 7) as [red|]; [|done].
  destruct (read src 3) as [green|]; [|done].
  destruct (read src 2) as [blue|]; [|done].
  cbn -[amin amax] in *. injection Ha as <-.
  rewrite Hmin, Hmax. cbn. by destruct (Np.equal max_val min_val).
Qed.

(** Claim C5.  For a raster with at least 7 bands whose stacked bands 7, 3
    and 2 have a maximum equal to their minimum, the composite is the image
    of the height and width of the raster whose three channels are 0 at
    every pixel. *)
Theorem flat_composite_is_zero (pf : platform) (src : DatasetReader) h w
    a min_val max_val :
  raster_shape h w src →
  (7 ≤ count src)%nat →
  false_color_composite src = Returned a →
  amin (ravel3 a) = Returned min_val →
  amax (ravel3 a) = Returned max_val →
  Np.equal max_val min_val = true →
  create_false_color_composite pf (Some (Returned src))
  = Returned (full h w (0, 0, 0)).
Proof.
  intros Hsrc _ Ha Hmin Hmax Heq.
  rewrite (create_false_color_composite_eq pf src a min_val max_val) by done.
  rewrite Heq. f_equal. unfold zeros_like, full. apply map2_const.
  by eapply false_color_composite_shape.
Qed.

(** The conversion to 8 bits truncates. *)
Lemma trunc_floor (y : Np.scalar) :
  Np.is_finite y = true → (0 <= Np.to_Q y)%Q →
  Np.trunc y = Some (Qfloor (Np.to_Q y)).
Proof.
  destruct y as [s| | |s m e]; try done.
  intros _ Hpos. destruct s.
  { exfalso. unfold Np.to_Q in Hpos. destruct e; unfold Qle in Hpos;
      simpl in Hpos; lia. }
  unfold Np.trunc, Np.to_Q. f_equal. destruct e as [|p|p].
  - by rewrite Qfloor_Z.
  - rewrite Qfloor_Z, Z.shiftl_mul_pow2 by lia. by rewrite Pos2Z.inj_pow.
  - change (Z.shiftl (Z.pos m) (Z.neg p)) with (Z.shiftr (Z.pos m) (Z.pos p)).
    rewrite Z.shiftr_div_pow2 by lia. unfold Qfloor.
    by rewrite Pos2Z.inj_pow.
Qed.

Lemma astype_uint8_floor (cast_invalid : Np.scalar → Z) (y : Np.scalar) :
  Np.is_finite y = true → (0 <= Np.to_Q y)%Q → (Np.to_Q y < 256)%Q →
  Np.astype_uint8 cast_invalid y = Qfloor (Np.to_Q y).
Proof.
  intros Hfin Hpos Hlt. unfold Np.astype_uint8.
  rewrite trunc_floor by done.
  assert (0 ≤ Qfloor (Np.to_Q y)) as H0.
  { change 0 with (Qfloor 0). by apply Qfloor_resp_le. }
  assert (Qfloor (Np.to_Q y) < 256) as H1.
  { rewrite Zlt_Qlt. eapply Qle_lt_trans; [apply Qfloor_le|]. exact Hlt. }
  destruct (Z.leb_spec 0 (Qfloor (Np.to_Q y))); [|lia].
  destruct (Z.ltb_spec (Qfloor (Np.to_Q y)) 256); [done|lia].
Qed.

(** Claim C4, amended.  When the maximum of the stacked bands differs from
    their minimum, every output sample is
    [(value - min) / (max - min) * 255], computed in the floating-point
    arithmetic of the raster and converted with [astype(np.uint8)]: the
    product is truncated, not rounded, so that the sample is the floor of
    the product whenever the product is finite and in the range from 0 to
    256. *)
Theorem composite_truncates (pf : platform) (src : DatasetReader)
    a min_val max_val :
  false_color_composite src = Returned a →
  amin (ravel3 a) = Returned min_val →
  amax (ravel3 a) = Returned max_val →
  Np.equal max_val min_val = false →
  ∃ image_uint8,
    create_false_color_composite pf (Some (Returned src)) = Returned image_uint8
    ∧ (∀ i j p, get2 a i j = Some p →
         get2 image_uint8 i j
         = Some (map_pixel (rescale (dtype_of src) (cast_invalid pf)
                              min_val max_val) p))
    ∧ (∀ v,
         let dt := dtype_of src in
         let y := Np.multiply dt
                    (Np.divide dt (Np.subtract dt v min_val)
                                  (Np.subtract dt max_val min_val))
                    (Np.of_int dt 255) in
         Np.is_finite y = true → (0 <= Np.to_Q y)%Q → (Np.to_Q y < 256)%Q →
         rescale dt (cast_invalid pf) min_val max_val v = Qfloor (Np.to_Q y)).
Proof.
  intros Ha Hmin Hmax Hne. eexists. split; [|split].
  - rewrite (create_false_color_composite_eq pf src a min_val max_val) by done.
    by rewrite Hne.
  - intros i j p Hp. by rewrite get2_map2, Hp.
  - intros v dt y Hfin H0 H1. unfold rescale. by apply astype_uint8_floor.
Qed.

Lemma composite_truncates_witness :
  ∃ image_uint8,
    create_false_color_composite (Linear.numpy float64)
      (Some (Returned Sample.graded)) = Returned image_uint8
    ∧ get2 image_uint8 0 0 = Some (0, 63, 255).
Proof.
  destruct (composite_truncates (Linear.numpy float64) Sample.graded
              [[(Np.of_int float64 0, Np.of_int float64 1, Np.of_int float64 4)]]
              (Np.of_int float64 0) (Np.of_int float64 4))
    as (img & Himg & Hpx & _); [reflexivity ..|].
  exists img. split; [exact Himg|].
  exact (Hpx 0%nat 0%nat _ eq_refl).
Defined.

(** Claim C4 as stated does not hold: with the samples 0, 1 and 4 the
    sample 1 gives 0.25 * 255 = 63.75, which the function turns into 63 and
    rounding into 64. *)
Lemma composite_rounds_counterexample :
  ¬ (∀ (pf : platform) (src : DatasetReader) a min_val max_val image_uint8,
       false_color_composite src = Returned a →
       amin (ravel3 a) = Returned min_val →
       amax (ravel3 a) = Returned max_val →
       Np.equal max_val min_val = false →
       create_false_color_composite pf (Some (Returned src)) = Returned image_uint8 →
       ∀ i j p, get2 a i j = Some p →
         get2 image_uint8 i j
         = Some (map_pixel (rescale_rounded min_val max_val) p)).
Proof.
  intros Hclaim.
  specialize (Hclaim (Linear.numpy float64) Sample.graded
                [[(Np.of_int float64 0, Np.of_int float64 1, Np.of_int float64 4)]]
                (Np.of_int float64 0) (Np.of_int float64 4)
                [[(0, 63, 255)]]
                eq_refl eq_refl eq_refl eq_refl eq_refl 0%nat 0%nat _ eq_refl).
  vm_compute in Hclaim. discriminate Hclaim.
Qed.

(** ** The properties on the sample rasters *)

Lemma linear_percentile_defined (dt : dtype) (l : list Np.scalar) :
  l ≠ [] → ∃ p, percentile (Linear.numpy dt) l = Returned p.
Proof. destruct l; [done|]. intros _. by eexists. Qed.

Lemma water_mask_strict_witness :
  mask_at (water_mask [[threshold_0_2; Np.of_int float32 1]] threshold_0_2) 0 0
    = false
  ∧ mask_at (water_mask [[threshold_0_2; Np.of_int float32 1]] threshold_0_2) 0 1
    = true.
Proof.
  split.
  - apply (water_mask_strict [[threshold_0_2; Np.of_int float32 1]]
             threshold_0_2 0 0 threshold_0_2); reflexivity.
  - apply (water_mask_strict [[threshold_0_2; Np.of_int float32 1]]
             threshold_0_2 0 1 (Np.of_int float32 1)); reflexivity.
Defined.

Lemma apply_water_mask_spec_witness :
  ∃ output_image σ' a',
    apply_water_mask {[1%positive := [[(1, 2, 3); (4, 5, 6)]]]} 1%positive
      [[true; false]] = (output_image, σ')
    ∧ σ' !! output_image = Some a'
    ∧ σ' !! 1%positive = Some [[(1, 2, 3); (4, 5, 6)]]
    ∧ get2 a' 0 0 = Some (60, 130, 255)
    ∧ get2 a' 0 1 = Some (4, 5, 6).
Proof.
  destruct (apply_water_mask_spec {[1%positive := [[(1, 2, 3); (4, 5, 6)]]]}
              1%positive [[true; false]] [[(1, 2, 3); (4, 5, 6)]])
    as (out & σ' & a' & Heq & _ & Hout & _ & Hbg & Hpx); [reflexivity|].
  exists out, σ', a'.
  split; [exact Heq|]. split; [exact Hout|]. split; [exact Hbg|].
  split; [exact (Hpx 0%nat 0%nat) | exact (Hpx 0%nat 1%nat)].
Defined.

Lemma flat_composite_is_zero_witness :
  create_false_color_composite (Linear.numpy float32) (Some (Returned Sample.flat))
  = Returned (full 2 2 (0, 0, 0)).
Proof.
  apply (flat_composite_is_zero (Linear.numpy float32) Sample.flat 2 2
           (full 2 2 (Np.of_int float32 5, Np.of_int float32 5, Np.of_int float32 5))
           (Np.of_int float32 5) (Np.of_int float32 5)).
  - repeat constructor.
  - vm_compute. lia.
  - reflexivity.
  - reflexivity.
  - reflexivity.
  - reflexivity.
Defined.

Lemma insufficient_bands_wrapped_witness :
  create_false_color_composite (Linear.numpy float32)
    (Some (Returned Sample.three_bands))
    = Raised (GrError (UnexpectedError (GrError (HasOnlyBands 3 7))))
  ∧ highlight_water_bodies (Linear.numpy float32)
      (Some (Returned Sample.three_bands)) threshold_0_2
    = Raised (GrError (UnexpectedError (GrError (HasOnlyBands 3 5)))).
Proof.
  destruct (insufficient_bands_wrapped (Linear.numpy float32) Sample.three_bands
              threshold_0_2) as (H7 & H5 & _); [vm_compute; lia|].
  split; [exact H7|]. apply H5. vm_compute. lia.
Defined.

Lemma normalize_band_unguarded_witness :
  ∃ scaled,
    normalize_band (Linear.numpy float32) (full 2 2 (Np.of_int float32 100))
      = Returned scaled
    ∧ get2 scaled 0 0 = Some S754_nan.
Proof.
  destruct (normalize_band_unguarded (Linear.numpy float32)
              (full 2 2 (Np.of_int float32 100))
              (Np.of_int float32 100) (Np.of_int float32 100))
    as (scaled & Hs & Hnan); [reflexivity | reflexivity |].
  exists scaled. split; [exact Hs|]. apply Hnan. by eexists.
Defined.

Lemma constant_raster_scenario_witness :
  highlight_water_bodies (Linear.numpy float32) (Some (Returned Sample.scenario))
    threshold_0_2
  = Returned (full 10 10 (60, 130, 255)).
Proof.
  destruct (constant_raster_scenario (Linear.numpy float32) Sample.scenario
              (full 10 10 (Np.of_int float32 7)))
    as (x & _ & _ & _ & H).
  - apply linear_percentile_defined.
  - left. reflexivity.
  - reflexivity.
  - exact H.
Defined.

Lemma water_mask_antitone_witness :
  ∃ nd img1,
    ndwi_of Sample.shore = Returned nd
    ∧ highlight_water_bodies (Linear.numpy float32) (Some (Returned Sample.shore))
        (Np.of_int float32 0) = Returned img1
    ∧ mask_at (water_mask nd threshold_0_2) 0 1 = true
    ∧ mask_at (water_mask nd (Np.of_int float32 0)) 0 1 = true
    ∧ get2 img1 0 1 = Some highlight.
Proof.
  destruct (water_mask_antitone (Linear.numpy float32) Sample.shore 1 2
              (Np.of_int float32 0) threshold_0_2
              [[(0, 0, 0); (60, 130, 255)]])
    as (nd & img1 & Hnd & Himg1 & Hpx).
  - repeat constructor.
  - reflexivity.
  - reflexivity.
  - exists nd, img1. split; [exact Hnd|]. split; [exact Himg1|].
    assert (mask_at (water_mask nd threshold_0_2) 0 1 = true) as Hm.
    { injection Hnd as <-. reflexivity. }
    destruct (Hpx 0%nat 1%nat Hm) as (_ & Hm1 & Hp1). done.
Defined.

Lemma zero_sum_pixel_is_water_witness :
  get2 (ndwi [[Np.of_int float32 0; Np.of_int float32 7]]
             [[Np.of_int float32 0; Np.of_int float32 3]]) 0 0
    = Some (S754_zero false)
  ∧ ∃ img,
      highlight_water_bodies (Linear.numpy float32) (Some (Returned Sample.shore))
        (Np.of_int float32 (-1)) = Returned img
      ∧ get2 img 0 0 = Some highlight.
Proof.
  destruct (zero_sum_pixel_is_water (Linear.numpy float32) Sample.shore 1 2
              [[Np.of_int float32 0; Np.of_int float32 7]]
              [[Np.of_int float32 0; Np.of_int float32 3]]
              [[(0, 0, 0); (255, 0, 255)]]
              (Np.of_int float32 (-1)) 0 0
              (Np.of_int float32 0) (Np.of_int float32 0))
    as (Hnd & Hneg & _).
  - repeat constructor.
  - reflexivity.
  - reflexivity.
  - reflexivity.
  - reflexivity.
  - reflexivity.
  - reflexivity.
  - split; [exact Hnd|]. destruct Hneg as (_ & img & Himg & Hpx); [reflexivity|].
    by exists img.
Defined.

(** * Further properties *)

(** ** Quotients of equal magnitudes *)

Lemma div_eucl_shiftl (m : positive) (p : Z) :
  0 <= p → Z.div_eucl (Z.shiftl (Z.pos m) p) (Z.pos m) = (2 ^ p, 0).
Proof.
  intros Hp. rewrite Z.shiftl_mul_pow2 by done.
  pose proof (Z.div_mul (2 ^ p) (Z.pos m)) as Hd.
  pose proof (Z.mod_mul (2 ^ p) (Z.pos m)) as Hm.
  unfold Z.div, Z.modulo in Hd, Hm.
  rewrite (Z.mul_comm (Z.pos m)).
  destruct (Z.div_eucl (2 ^ p * Z.pos m) (Z.pos m)) as [q r].
  simpl in *. rewrite Hd, Hm by lia. done.
Qed.

Lemma div_core_self (p emax : Z) (m : positive) (e : Z) :
  0 < p → 3 <= emax →
  SFdiv_core_binary p emax (Z.pos m) e (Z.pos m) e = (2 ^ p, - p, loc_Exact).
Proof.
  intros Hp Hemax. unfold SFdiv_core_binary, fexp, emin.
  assert (Zdigits2 (Z.pos m) + e - (Zdigits2 (Z.pos m) + e) = 0) as -> by lia.
  assert (e - e = 0) as -> by lia.
  assert (Z.max (0 - p) (3 - emax - p) = - p) as -> by lia.
  assert (Z.min (- p) 0 = - p) as -> by lia.
  assert (0 - - p = p) as -> by lia.
  destruct p as [|p|p]; try lia.
  rewrite div_eucl_shiftl by lia.
  unfold new_location, new_location_even, new_location_odd.
  by destruct (Z.even (Z.pos m)).
Qed.

Lemma divide_same_magnitude (dt : dtype) s1 s2 m e :
  dt = float32 ∨ dt = float64 →
  Np.divide dt (S754_finite s1 m e) (S754_finite s2 m e)
  = (if xorb s1 s2 then Np.of_int dt (-1) else Np.of_int dt 1).
Proof.
  intros Hdt. unfold Np.divide, SFdiv.
  rewrite div_core_self by (destruct Hdt as [-> | ->]; simpl; lia).
  destruct Hdt as [-> | ->]; by destruct s1, s2.
Qed.

(** ** Conversion to 8 bits *)

Lemma astype_uint8_range (cast_invalid : Np.scalar → Z) (x : Np.scalar) :
  uint8 (Np.astype_uint8 cast_invalid x).
Proof.
  unfold uint8, Np.astype_uint8.
  pose proof (Z.mod_pos_bound (cast_invalid x) 256).
  destruct (Np.trunc x) as [n|]; [|lia].
  destruct (Z.leb_spec 0 n), (Z.ltb_spec n 256); simpl; lia.
Qed.

Lemma channels_map_pixel {A B} (f : A → B) (p : pixel A) :
  channels (map_pixel f p) = f <$> channels p.
Proof. by destruct p as [[r g] b]. Qed.

Lemma uint8_image_map2 {A} (f : A → pixel Z) (a : array2 A) h w :
  has_shape h w a → (∀ x, Forall uint8 (channels (f x))) →
  uint8_image h w (map2 f a).
Proof.
  intros Ha Hf. split; [by apply has_shape_map2|].
  intros i j p. rewrite get2_map2.
  destruct (get2 a i j) as [x|]; [|done]. intros [= <-]. apply Hf.
Qed.

Lemma uint8_highlight : Forall uint8 (channels highlight).
Proof. repeat constructor; unfold uint8; lia. Qed.

Lemma has_shape_paint (m : mask) color (a : image) h w :
  has_shape h w a → has_shape h w (paint m color a).
Proof.
  intros [Hh Hw]. split.
  - unfold paint. by rewrite length_imap.
  - rewrite Forall_forall. intros row Hrow.
    apply list_elem_of_lookup_1 in Hrow as [i Hi].
    unfold paint in Hi. rewrite list_lookup_imap in Hi.
    destruct (a !! i) as [row'|] eqn:Hrow'; [|done].
    simpl in Hi. injection Hi as <-. rewrite length_imap.
    rewrite Forall_forall in Hw. apply Hw. by eapply list_elem_of_lookup_2.
Qed.

Lemma uint8_image_paint (m : mask) (a : image) h w :
  uint8_image h w a → uint8_image h w (paint m highlight a).
Proof.
  intros [Ha Hpx]. split; [by apply has_shape_paint|].
  intros i j p. rewrite get2_paint.
  destruct (get2 a i j) as [px|] eqn:Hp; [|done]. simpl.
  intros [= <-]. destruct (mask_at m i j); [apply uint8_highlight|by eapply Hpx].
Qed.

(** Painting with a mask that holds nowhere changes nothing. *)
Lemma paint_none (m : mask) color (a : image) :
  (∀ i j, mask_at m i j = false) → paint m color a = a.
Proof.
  intros Hm. apply list_eq. intros i. unfold paint. rewrite list_lookup_imap.
  destruct (a !! i) as [row|]; [|done]. simpl. f_equal.
  apply list_eq. intros j. rewrite list_lookup_imap.
  destruct (row !! j) as [px|]; [|done]. simpl. by rewrite Hm.
Qed.

(** ** The composite: outcomes *)

Lemma read_Returned (src : DatasetReader) (k : nat) :
  (0 < k ≤ count src)%nat → ∃ b, read src k = Returned b.
Proof.
  intros Hk. unfold read. destruct k as [|i]; [lia|].
  destruct (lookup_lt_is_Some_2 (layers src) i) as [b Hb].
  { unfold count in Hk. lia. }
  rewrite Hb. by eexists.
Qed.

Lemma false_color_composite_Returned (src : DatasetReader) h w :
  raster_shape h w src → (7 ≤ count src)%nat →
  ∃ a, false_color_composite src = Returned a ∧ has_shape h w a.
Proof.
  intros Hsrc Hcount. unfold false_color_composite.
  destruct (read_Returned src 7) as [red Hred]; [lia|].
  destruct (read_Returned src 3) as [green Hgreen]; [lia|].
  destruct (read_Returned src 2) as [blue Hblue]; [lia|].
  rewrite Hred, Hgreen, Hblue. eexists. split; [done|].
  apply has_shape_dstack; by eapply read_shape.
Qed.

(** With seven bands or more, the function reduces to the stacked array. *)
Lemma create_false_color_composite_try (pf : platform) (src : DatasetReader) :
  (7 ≤ count src)%nat →
  create_false_color_composite pf (Some (Returned src))
  = try_except
      (a ← false_color_composite src;
       min_val ← amin (ravel3 a);
       max_val ← amax (ravel3 a);
       Returned
         (if Np.equal max_val min_val then zeros_like a
          else map2 (map_pixel (rescale (dtype_of src) (cast_invalid pf)
                                  min_val max_val)) a)).
Proof.
  intros Hcount. unfold create_false_color_composite, false_color_composite.
  f_equal. cbn -[count Nat.ltb read amin amax].
  destruct (Nat.ltb_spec (count src) 7) as [Hlt|_]; [lia|].
  destruct (read src 7) as [red|]; [|done].
  destruct (read src 3) as [green|]; [|done].
  destruct (read src 2) as [blue|]; [|done].
  cbn -[amin amax].
  destruct (amin _) as [mn|]; [|done].
  destruct (amax _) as [mx|]; [|done].
  cbn. by destruct (Np.equal mx mn).
Qed.

Lemma ravel3_nonempty {A} (a : array2 (pixel A)) h w :
  has_shape h w a → (0 < h)%nat → (0 < w)%nat →
  ∃ x l, ravel3 a = x :: l.
Proof.
  intros [Hh Hw] Hh0 Hw0. destruct a as [|row a]; simpl in Hh; [lia|].
  apply Forall_cons in Hw as [Hrow _].
  destruct row as [|[[r g] b] row]; simpl in Hrow; [lia|].
  unfold ravel3. simpl. by eexists _, _.
Qed.

Lemma ravel3_empty {A} (a : array2 (pixel A)) h w :
  has_shape h w a → h = 0%nat ∨ w = 0%nat → ravel3 a = [].
Proof.
  intros [Hh Hw] H0. unfold ravel3.
  assert (concat a = []) as ->; [|done].
  destruct H0 as [-> | ->].
  - by destruct a.
  - clear Hh. induction a as [|row a IH]; [done|].
    apply Forall_cons in Hw as [Hrow Hw]. simpl.
    destruct row; [|done]. simpl. by apply IH.
Qed.

(** Property X1.  For a raster with at least 7 bands whose bands have one
    shape with at least one row and one column, the composite function
    returns an image: it has the height and width of the raster, and each of
    its three channels is between 0 and 255 at every pixel. *)
Theorem composite_returns_uint8_image (pf : platform) (src : DatasetReader) h w :
  raster_shape h w src → (7 ≤ count src)%nat → (0 < h)%nat → (0 < w)%nat →
  ∃ image_uint8,
    create_false_color_composite pf (Some (Returned src)) = Returned image_uint8
    ∧ uint8_image h w image_uint8.
Proof.
  intros Hsrc Hcount Hh Hw.
  destruct (false_color_composite_Returned src h w Hsrc Hcount) as (a & Ha & Hsa).
  destruct (ravel3_nonempty a h w Hsa Hh Hw) as (x & l & Hl).
  rewrite create_false_color_composite_try by done.
  rewrite Ha. cbn -[amin amax]. rewrite Hl. cbn.
  eexists. split; [done|].
  destruct (Np.equal _ _).
  - apply uint8_image_map2; [done|]. intros _. repeat constructor; unfold uint8; lia.
  - apply uint8_image_map2; [done|]. intros p. rewrite channels_map_pixel.
    apply Forall_fmap, Forall_true. intros v. apply astype_uint8_range.
Qed.

(** Property X2.  For a raster with at least 7 bands that have no sample
    (no row, or no column), the minimum of the stacked array does not exist:
    NumPy raises [ValueError], and the function reports it as an unexpected
    error. *)
Theorem composite_empty_raster (pf : platform) (src : DatasetReader) h w :
  raster_shape h w src → (7 ≤ count src)%nat → h = 0%nat ∨ w = 0%nat →
  create_false_color_composite pf (Some (Returned src))
  = Raised (GrError (UnexpectedError ValueError)).
Proof.
  intros Hsrc Hcount H0.
  destruct (false_color_composite_Returned src h w Hsrc Hcount) as (a & Ha & Hsa).
  rewrite create_false_color_composite_try by done.
  rewrite Ha. cbn -[amin amax]. by rewrite (ravel3_empty a h w).
Qed.

(** ** The composite: the ends of the range *)







Section Ends.
Variable dt : dtype.
Hypothesis dt_float : dt = float32 ∨ dt = float64.
Variable cast_invalid : Np.scalar → Z.

Lemma subtract_finite_inv (x y : Np.scalar) s m e :
  Np.subtract dt x y = S754_finite s m e →
  Np.is_finite x = true ∧ Np.is_finite y = true.
Proof.
  unfold Np.subtract.
  destruct x as [[]|[]| |sx mx ex], y as [[]|[]| |sy my ey]; simpl; try done.
Qed.

Lemma subtract_self_zero (x : Np.scalar) :
  Np.is_finite x = true → ∃ s, Np.subtract dt x x = S754_zero s.
Proof.
  destruct x as [[]| | |s m e]; try done; intros _.
  - by exists false.
  - by exists false.
  - exists false. apply subtract_self_finite.
Qed.



End Ends.


(** Property X4.  The composite depends on bands 7, 3 and 2 only: two
    rasters of the same dtype with at least 7 bands that agree on these
    three bands give the same result, whatever their other bands are and
    however many they have; nor does the percentile of the platform play a
    role. *)
Theorem composite_reads_three_bands (pf pf' : platform) (src src' : DatasetReader) :
  (7 ≤ count src)%nat → (7 ≤ count src')%nat →
  dtype_of src = dtype_of src' →
  cast_invalid pf = cast_invalid pf' →
  read src 7 = read src' 7 → read src 3 = read src' 3 → read src 2 = read src' 2 →
  create_false_color_composite pf (Some (Returned src))
  = create_false_color_composite pf' (Some (Returned src')).
Proof.
  intros Hc Hc' Hdt Hci H7 H3 H2.
  rewrite !create_false_color_composite_try by done.
  unfold false_color_composite. by rewrite Hdt, Hci, H7, H3, H2.
Qed.

(** ** Errors *)

Lemma try_except_GrError {A} (body : result A) (e : exn) :
  try_except body = Raised e → ∃ message, e = GrError message.
Proof.
  unfold try_except. destruct body as [a|[]]; try done; intros [= <-]; by eexists.
Qed.

(** Property X5.  Whatever the upload, the only exception that leaves
    either function is [gr.Error]: an exception of rasterio or NumPy never
    reaches the caller. *)
Theorem only_gr_error_escapes (pf : platform) (tiff_file : upload)
    (ndwi_threshold : Np.scalar) (e : exn) :
  create_false_color_composite pf tiff_file = Raised e
  ∨ highlight_water_bodies pf tiff_file ndwi_threshold = Raised e →
  ∃ message, e = GrError message.
Proof.
  unfold create_false_color_composite, highlight_water_bodies.
  destruct tiff_file as [opened|].
  - intros [H|H]; by eapply try_except_GrError.
  - intros [[= <-]|[= <-]]; by eexists.
Qed.






(** ** The water detection: outcomes *)

Lemma background_image_uint8 (pf : platform) (src : DatasetReader) h w bg :
  raster_shape h w src → background_image pf src = Returned bg →
  uint8_image h w bg.
Proof.
  intros Hsrc Hbg. split; [by eapply background_image_shape|].
  unfold background_image in Hbg.
  destruct (read_float32 src 4) as [red|]; [|done].
  destruct (read_float32 src 3) as [green|]; [|done].
  destruct (read_float32 src 2) as [blue|]; [|done]. simpl in Hbg.
  destruct (normalize_band pf red) as [r|]; [|done].
  destruct (normalize_band pf green) as [g|]; [|done].
  destruct (normalize_band pf blue) as [b|]; [|done]. simpl in Hbg.
  injection Hbg as <-. intros i j p. unfold to_uint8. rewrite get2_map2.
  destruct (get2 _ i j) as [q|]; [|done]. intros [= <-].
  rewrite channels_map_pixel. apply Forall_fmap, Forall_true.
  intros v. apply astype_uint8_range.
Qed.

(** Property X7.  When the water detection returns an image, the
    background and the index exist, and every pixel of the image is the
    pixel of the background, unless the index at that pixel is strictly
    greater than the threshold, where it is (60, 130, 255); the image has no
    other pixel. *)
Theorem highlight_water_bodies_pixels (pf : platform) (src : DatasetReader)
    (ndwi_threshold : Np.scalar) (output_image : image) :
  highlight_water_bodies pf (Some (Returned src)) ndwi_threshold
    = Returned output_image →
  ∃ bg nd,
    background_image pf src = Returned bg
    ∧ ndwi_of src = Returned nd
    ∧ ∀ i j,
        get2 output_image i j
        = (λ px,
             match get2 nd i j with
             | Some v => if Np.greater v ndwi_threshold then (60, 130, 255) else px
             | None => px
             end) <$> get2 bg i j.
Proof.
  intros Himg.
  destruct (highlight_water_bodies_inv _ _ _ _ Himg)
    as (_ & bg & nd & Hbg & Hnd & ->).
  exists bg, nd. split; [done|]. split; [done|].
  intros i j. rewrite get2_paint, mask_at_water_mask.
  destruct (get2 bg i j) as [px|]; [|done]. simpl.
  by destruct (get2 nd i j).
Qed.

(** Property X8.  For a raster with at least 5 bands of one shape, if the
    percentiles of the positive samples of bands 4, 3 and 2 exist, the water
    detection returns an image, for every threshold; the image has the
    height and width of the raster and channels between 0 and 255. *)
Theorem highlight_returns_uint8_image (pf : platform) (src : DatasetReader) h w
    (ndwi_threshold : Np.scalar) :
  raster_shape h w src → (5 ≤ count src)%nat →
  (∀ k band, k ∈ [4; 3; 2]%nat → read_float32 src k = Returned band →
     ∃ p, percentile pf (positive_samples band) = Returned p) →
  ∃ output_image,
    highlight_water_bodies pf (Some (Returned src)) ndwi_threshold
      = Returned output_image
    ∧ uint8_image h w output_image.
Proof.
  intros Hsrc Hcount Hperc.
  assert (∀ k, (0 < k ≤ 5)%nat → ∃ b, read_float32 src k = Returned b) as Hread.
  { intros k Hk. destruct (read_Returned src k) as [b Hb]; [lia|].
    unfold read_float32. rewrite Hb. by eexists. }
  assert (∀ k band, k ∈ [4; 3; 2]%nat → read_float32 src k = Returned band →
            ∃ scaled, normalize_band pf band = Returned scaled) as Hnorm.
  { intros k band Hk Hband. destruct (Hperc k band Hk Hband) as [[p2 p98] Hp].
    unfold normalize_band. unfold positive_samples in Hp. rewrite Hp. by eexists. }
  destruct (Hread 4%nat) as [red Hred]; [lia|].
  destruct (Hread 3%nat) as [green Hgreen]; [lia|].
  destruct (Hread 2%nat) as [blue Hblue]; [lia|].
  destruct (Hread 5%nat) as [nir Hnir]; [lia|].
  destruct (Hnorm 4%nat red) as [r Hr]; [set_solver|done|].
  destruct (Hnorm 3%nat green) as [g Hg]; [set_solver|done|].
  destruct (Hnorm 2%nat blue) as [b Hb]; [set_solver|done|].
  assert (background_image pf src = Returned (to_uint8 pf (dstack r g b))) as Hbg.
  { unfold background_image. rewrite Hred, Hgreen, Hblue.
    cbn -[normalize_band to_uint8]. rewrite Hr, Hg, Hb. done. }
  assert (ndwi_of src = Returned (ndwi green nir)) as Hnd.
  { unfold ndwi_of. by rewrite Hgreen, Hnir. }
  rewrite (highlight_water_bodies_Returned pf src ndwi_threshold _ _ Hcount Hbg Hnd).
  eexists. split; [done|].
  apply uint8_image_paint. by eapply background_image_uint8.
Qed.

Lemma normalize_band_Raised (pf : platform) (band : ndarray) (e : exn) :
  percentile pf (positive_samples band) = Raised e →
  normalize_band pf band = Raised e.
Proof. intros Hp. unfold normalize_band. unfold positive_samples in Hp. by rewrite Hp. Qed.

(** Property X9.  When [np.percentile] raises on the positive samples of
    band 4, as some releases do when the band has no positive sample, the
    water detection does not return: the exception is reported as an
    unexpected error, for every threshold. *)
Theorem percentile_failure_is_unexpected (pf : platform) (src : DatasetReader)
    (ndwi_threshold : Np.scalar) (red : ndarray) (e : exn) :
  (5 ≤ count src)%nat →
  read_float32 src 4 = Returned red →
  percentile pf (positive_samples red) = Raised e →
  e ≠ RasterioIOError →
  highlight_water_bodies pf (Some (Returned src)) ndwi_threshold
  = Raised (GrError (UnexpectedError e)).
Proof.
  intros Hcount Hred Hp He.
  rewrite highlight_water_bodies_eq by done.
  unfold background_image. rewrite Hred.
  destruct (read_Returned src 3) as [b3 Hb3]; [lia|].
  destruct (read_Returned src 2) as [b2 Hb2]; [lia|].
  unfold read_float32 at 1 2. rewrite Hb3, Hb2.
  cbn -[normalize_band]. rewrite (normalize_band_Raised pf red e Hp).
  cbn. by destruct e.
Qed.

(** Where no value of the index exceeds the threshold, the function returns
    the background. *)
Lemma highlight_water_bodies_background (pf : platform) (src : DatasetReader)
    (t : Np.scalar) bg nd :
  (5 ≤ count src)%nat →
  background_image pf src = Returned bg → ndwi_of src = Returned nd →
  (∀ i j v, get2 nd i j = Some v → Np.greater v t = false) →
  highlight_water_bodies pf (Some (Returned src)) t = Returned bg.
Proof.
  intros Hcount Hbg Hnd Hno.
  rewrite (highlight_water_bodies_Returned pf src t bg nd) by done.
  f_equal. apply paint_none. intros i j. rewrite mask_at_water_mask.
  destruct (get2 nd i j) as [v|] eqn:Hv; [|done]. by eapply Hno.
Qed.

(** Property X10.  When no value of the index is strictly greater than the
    threshold, the water detection returns the contrast-stretched background
    unchanged. *)
Theorem no_water_returns_background (pf : platform) (src : DatasetReader)
    (ndwi_threshold : Np.scalar) bg nd :
  (5 ≤ count src)%nat →
  background_image pf src = Returned bg → ndwi_of src = Returned nd →
  (∀ i j v, get2 nd i j = Some v → SFcompare v ndwi_threshold ≠ Some Gt) →
  highlight_water_bodies pf (Some (Returned src)) ndwi_threshold = Returned bg.
Proof.
  intros Hcount Hbg Hnd Hno.
  apply (highlight_water_bodies_background pf src ndwi_threshold bg nd); try done.
  intros i j v Hv. specialize (Hno i j v Hv).
  unfold Np.greater, SFltb. rewrite (compare_swap v ndwi_threshold).
  by destruct (SFcompare v ndwi_threshold) as [[]|].
Qed.

(** Property X11.  With a threshold that is NaN or plus infinity no pixel
    is water: for every raster with at least 5 bands whose background
    exists, the function returns that background. *)
Theorem nan_or_infinite_threshold (pf : platform) (src : DatasetReader)
    (ndwi_threshold : Np.scalar) bg :
  (5 ≤ count src)%nat →
  background_image pf src = Returned bg →
  ndwi_threshold = S754_nan ∨ ndwi_threshold = S754_infinity false →
  highlight_water_bodies pf (Some (Returned src)) ndwi_threshold = Returned bg.
Proof.
  intros Hcount Hbg Ht.
  destruct (read_Returned src 3) as [b3 Hb3]; [lia|].
  destruct (read_Returned src 5) as [b5 Hb5]; [lia|].
  assert (∃ nd, ndwi_of src = Returned nd) as [nd Hnd].
  { unfold ndwi_of, read_float32. rewrite Hb3, Hb5. by eexists. }
  apply (highlight_water_bodies_background pf src ndwi_threshold bg nd); try done.
  intros i j v _. unfold Np.greater, SFltb.
  destruct Ht as [-> | ->]; by destruct v as [[]|[]| |[] m e].
Qed.

(** Property X16.  When every value of the index is strictly greater than
    the threshold, the water detection returns the image of the height and
    width of the raster whose every pixel is (60, 130, 255), whatever the
    background. *)
Theorem all_water_returns_highlight (pf : platform) (src : DatasetReader) h w
    (ndwi_threshold : Np.scalar) bg nd :
  raster_shape h w src → (5 ≤ count src)%nat →
  background_image pf src = Returned bg → ndwi_of src = Returned nd →
  (∀ i j v, get2 nd i j = Some v → SFcompare v ndwi_threshold = Some Gt) →
  highlight_water_bodies pf (Some (Returned src)) ndwi_threshold
  = Returned (full h w (60, 130, 255)).
Proof.
  intros Hsrc Hcount Hbg Hnd Hall.
  rewrite (highlight_water_bodies_Returned pf src ndwi_threshold bg nd) by done.
  f_equal. apply paint_all; [by eapply background_image_shape|].
  intros i j Hi Hj. rewrite mask_at_water_mask.
  destruct (get2_is_Some nd h w i j) as [v Hv]; [by eapply ndwi_of_shape|done..|].
  rewrite Hv. unfold Np.greater, SFltb. rewrite (compare_swap v ndwi_threshold).
  by rewrite (Hall i j v Hv).
Qed.

(** Property X15.  The water detection depends on bands 2, 3, 4 and 5
    only: two rasters with at least 5 bands that agree on these four bands
    give the same result for every threshold. *)
Theorem water_detection_reads_four_bands (pf : platform) (src src' : DatasetReader)
    (ndwi_threshold : Np.scalar) :
  (5 ≤ count src)%nat → (5 ≤ count src')%nat →
  (∀ k, k ∈ [2; 3; 4; 5]%nat → read_float32 src k = read_float32 src' k) →
  highlight_water_bodies pf (Some (Returned src)) ndwi_threshold
  = highlight_water_bodies pf (Some (Returned src')) ndwi_threshold.
Proof.
  intros Hc Hc' Hread. rewrite !highlight_water_bodies_eq by done.
  unfold background_image, ndwi_of.
  rewrite (Hread 2%nat), (Hread 3%nat), (Hread 4%nat), (Hread 5%nat) by set_solver.
  done.
Qed.

(** ** The index at special samples *)

(** Property X12.  At a pixel where the green or the NIR sample is NaN the
    zero-denominator guard does not apply, the index is NaN, and the pixel
    is in the water mask for no threshold. *)
Theorem nan_sample_is_never_water (green nir : ndarray) i j g n :
  get2 green i j = Some g → get2 nir i j = Some n →
  Np.isnan g = true ∨ Np.isnan n = true →
  get2 (ndwi green nir) i j = Some S754_nan
  ∧ ∀ ndwi_threshold,
      mask_at (water_mask (ndwi green nir) ndwi_threshold) i j = false.
Proof.
  intros Hg Hn Hnan.
  assert (get2 (ndwi green nir) i j = Some S754_nan) as Hnd.
  { rewrite get2_ndwi, Hg, Hn. simpl. f_equal.
    destruct Hnan as [Hnan|Hnan]; by destruct g, n. }
  split; [done|]. intros t. rewrite mask_at_water_mask, Hnd.
  unfold Np.greater, SFltb. by destruct t.
Qed.

(** Property X14.  At a pixel where NIR is zero and green is a finite
    number other than zero the index is exactly 1; where green is zero and
    NIR is a finite number other than zero it is exactly -1. *)
Theorem ndwi_of_a_single_band (green nir : ndarray) i j s m e z :
  (get2 green i j = Some (S754_finite s m e) →
   get2 nir i j = Some (S754_zero z) →
   get2 (ndwi green nir) i j = Some (Np.of_int float32 1))
  ∧ (get2 green i j = Some (S754_zero z) →
     get2 nir i j = Some (S754_finite s m e) →
     get2 (ndwi green nir) i j = Some (Np.of_int float32 (-1))).
Proof.
  split; intros Hg Hn; rewrite get2_ndwi, Hg, Hn; simpl; f_equal.
  - unfold divide_where.
    change (Np.add float32 (S754_finite s m e) (S754_zero z))
      with (S754_finite s m e).
    change (Np.subtract float32 (S754_finite s m e) (S754_zero z))
      with (S754_finite s m e).
    assert (Np.not_equal (S754_finite s m e) Np.zero = true) as ->
      by (by destruct s).
    rewrite divide_same_magnitude by auto. by rewrite xorb_nilpotent.
  - unfold divide_where.
    change (Np.add float32 (S754_zero z) (S754_finite s m e))
      with (S754_finite s m e).
    change (Np.subtract float32 (S754_zero z) (S754_finite s m e))
      with (S754_finite (negb s) m e).
    assert (Np.not_equal (S754_finite s m e) Np.zero = true) as ->
      by (by destruct s).
    rewrite divide_same_magnitude by auto. by destruct s.
Qed.

(** ** The contrast stretch at its ends *)

(** Property X13.  When the 2nd percentile is below the 98th and their
    difference is finite and not zero (the stretch at float32 or float64),
    [normalize_band] maps every sample that is not above the 2nd percentile,
    zero and negative samples among them, to 0, and every sample that is not
    below the 98th to exactly 1; their 8-bit values in the background are 0
    and 255. *)
Theorem stretch_saturates (pf : platform) (band : ndarray) p2 p98 s m e :
  stretch_dtype pf = float32 ∨ stretch_dtype pf = float64 →
  percentile pf (positive_samples band) = Returned (p2, p98) →
  Np.subtract (stretch_dtype pf) p98 p2 = S754_finite s m e →
  SFltb p2 p98 = true →
  ∃ scaled,
    normalize_band pf band = Returned scaled
    ∧ ∀ i j v, get2 band i j = Some v →
        let dt := stretch_dtype pf in
        let x := Np.astype dt v in
        let to8 y :=
          Np.astype_uint8 (cast_invalid pf) (Np.multiply dt y (Np.of_int dt 255)) in
        Np.isnan x = false →
        (Np.greater x p2 = false →
           ∃ y, get2 scaled i j = Some y ∧ y = S754_zero s ∧ to8 y = 0)
        ∧ (Np.greater x p2 = true → Np.less x p98 = false →
           ∃ y, get2 scaled i j = Some y ∧ y = Np.of_int dt 1 ∧ to8 y = 255).
Proof.
  intros Hdt Hp Hd Hlt. unfold normalize_band.
  unfold positive_samples in Hp. rewrite Hp. eexists. split; [reflexivity|].
  intros i j v Hv. set (dt := stretch_dtype pf) in *.
  set (x := Np.astype dt v). intros Hnan. rewrite !get2_map2, Hv.
  cbn [fmap option_fmap option_map]. fold x. rewrite Hd.
  destruct (subtract_finite_inv dt p98 p2 s m e Hd) as [H98 H2].
  assert (Np.isnan p2 = false) as Hn2 by (by destruct p2).
  split.
  - intros Hle. eexists. split; [done|].
    assert (Np.clip x p2 p98 = p2) as ->.
    { unfold Np.clip, Np.maximum, Np.minimum. rewrite Hle, Hnan. cbn.
      unfold Np.less. by rewrite Hlt. }
    destruct (subtract_self_zero dt p2 H2) as [s' Hs'].
    assert (Np.divide dt (Np.subtract dt p2 p2) (S754_finite s m e)
            = S754_zero s) as ->.
    { destruct p2 as [[]| | |s2 m2 e2]; try done.
      by rewrite subtract_self_finite. }
    split; [done|]. subst dt.
    destruct Hdt as [-> | ->]; by destruct s.
  - intros Hgt Hge. eexists. split; [done|].
    assert (Np.clip x p2 p98 = p98) as ->.
    { unfold Np.clip, Np.maximum, Np.minimum. rewrite Hgt. cbn.
      by rewrite Hge, Hnan. }
    rewrite Hd, divide_same_magnitude, xorb_nilpotent by done.
    split; [done|]. subst dt.
    destruct Hdt as [-> | ->]; reflexivity.
Qed.

(** ** The further properties on the sample rasters *)

Lemma composite_returns_uint8_image_witness :
  ∃ image_uint8,
    create_false_color_composite (Linear.numpy float64)
      (Some (Returned Sample.graded)) = Returned image_uint8
    ∧ uint8_image 1 1 image_uint8.
Proof.
  apply (composite_returns_uint8_image (Linear.numpy float64) Sample.graded 1 1).
  - repeat constructor.
  - vm_compute. lia.
  - lia.
  - lia.
Defined.

Lemma composite_empty_raster_witness :
  create_false_color_composite (Linear.numpy float32) (Some (Returned Edge.empty))
  = Raised (GrError (UnexpectedError ValueError)).
Proof.
  apply (composite_empty_raster (Linear.numpy float32) Edge.empty 0 0).
  - repeat constructor.
  - vm_compute. lia.
  - left. reflexivity.
Defined.


Lemma composite_reads_three_bands_witness :
  create_false_color_composite (Linear.numpy float64) (Some (Returned Sample.graded))
  = create_false_color_composite (Linear.numpy float32)
      (Some (Returned Edge.graded_other)).
Proof.
  apply (composite_reads_three_bands (Linear.numpy float64) (Linear.numpy float32)
           Sample.graded Edge.graded_other);
    try reflexivity; vm_compute; lia.
Defined.

Lemma only_gr_error_escapes_witness :
  ∃ message,
    GrError (UnexpectedError (GrError (HasOnlyBands 3 7))) = GrError message.
Proof.
  apply (only_gr_error_escapes (Linear.numpy float32)
           (Some (Returned Sample.three_bands)) threshold_0_2).
  left. reflexivity.
Defined.



Lemma highlight_water_bodies_pixels_witness :
  ∃ bg nd,
    background_image (Linear.numpy float32) Sample.shore = Returned bg
    ∧ ndwi_of Sample.shore = Returned nd
    ∧ ∀ i j,
        get2 [[(0, 0, 0); (60, 130, 255)]] i j
        = (λ px,
             match get2 nd i j with
             | Some v => if Np.greater v threshold_0_2 then (60, 130, 255) else px
             | None => px
             end) <$> get2 bg i j.
Proof.
  apply (highlight_water_bodies_pixels (Linear.numpy float32) Sample.shore
           threshold_0_2 [[(0, 0, 0); (60, 130, 255)]]).
  reflexivity.
Defined.

Lemma highlight_returns_uint8_image_witness :
  ∃ output_image,
    highlight_water_bodies (Linear.numpy float32) (Some (Returned Sample.shore))
      threshold_0_2 = Returned output_image
    ∧ uint8_image 1 2 output_image.
Proof.
  apply (highlight_returns_uint8_image (Linear.numpy float32) Sample.shore 1 2).
  - repeat constructor.
  - vm_compute. lia.
  - intros k band Hk Hband. apply linear_percentile_defined.
    apply elem_of_cons in Hk as [-> | Hk].
    { injection Hband as <-. by vm_compute. }
    apply elem_of_cons in Hk as [-> | Hk].
    { injection Hband as <-. by vm_compute. }
    apply elem_of_cons in Hk as [-> | Hk].
    { injection Hband as <-. by vm_compute. }
    by apply elem_of_nil in Hk.
Defined.

Lemma percentile_failure_is_unexpected_witness :
  highlight_water_bodies (Linear.numpy float32) (Some (Returned Edge.dark))
    threshold_0_2
  = Raised (GrError (UnexpectedError IndexError)).
Proof.
  apply (percentile_failure_is_unexpected (Linear.numpy float32) Edge.dark
           threshold_0_2 [[Np.of_int float32 0; Np.of_int float32 0]] IndexError).
  - vm_compute. lia.
  - reflexivity.
  - reflexivity.
  - discriminate.
Defined.

Lemma no_water_returns_background_witness :
  highlight_water_bodies (Linear.numpy float32) (Some (Returned Sample.shore))
    (Np.of_int float32 1)
  = Returned [[(0, 0, 0); (255, 0, 255)]].
Proof.
  apply (no_water_returns_background (Linear.numpy float32) Sample.shore
           (Np.of_int float32 1) [[(0, 0, 0); (255, 0, 255)]]
           [[S754_zero false; Np.divide float32 (Np.of_int float32 4)
                                (Np.of_int float32 10)]]).
  - vm_compute. lia.
  - reflexivity.
  - reflexivity.
  - intros i j v Hv.
    destruct i as [|[|i]]; try discriminate Hv.
    destruct j as [|[|[|j]]]; try discriminate Hv;
      injection Hv as <-; discriminate.
Defined.

Lemma nan_or_infinite_threshold_witness :
  highlight_water_bodies (Linear.numpy float32) (Some (Returned Sample.shore))
    S754_nan
  = Returned [[(0, 0, 0); (255, 0, 255)]].
Proof.
  apply (nan_or_infinite_threshold (Linear.numpy float32) Sample.shore S754_nan).
  - vm_compute. lia.
  - reflexivity.
  - left. reflexivity.
Defined.

Lemma nan_sample_is_never_water_witness :
  get2 (ndwi [[S754_nan]] [[Np.of_int float32 1]]) 0 0 = Some S754_nan
  ∧ ∀ ndwi_threshold,
      mask_at (water_mask (ndwi [[S754_nan]] [[Np.of_int float32 1]])
                 ndwi_threshold) 0 0 = false.
Proof.
  apply (nan_sample_is_never_water [[S754_nan]] [[Np.of_int float32 1]] 0 0
           S754_nan (Np.of_int float32 1)).
  - reflexivity.
  - reflexivity.
  - left. reflexivity.
Defined.

Lemma stretch_saturates_witness :
  ∃ scaled,
    normalize_band (Linear.numpy float32)
      [[Np.of_int float32 5; Np.of_int float32 9]] = Returned scaled
    ∧ get2 scaled 0 0 = Some (S754_zero false)
    ∧ get2 scaled 0 1 = Some (Np.of_int float32 1).
Proof.
  destruct (stretch_saturates (Linear.numpy float32)
              [[Np.of_int float32 5; Np.of_int float32 9]]
              (S754_finite false 10653532 (-21))
              (S754_finite false 9353298 (-20))
              false 16106128 (-22))
    as (scaled & Hs & Hpx); [left; reflexivity | reflexivity ..|].
  exists scaled. split; [exact Hs|]. split.
  - destruct (Hpx 0%nat 0%nat (Np.of_int float32 5) eq_refl eq_refl) as [H0 _].
    destruct (H0 eq_refl) as (y & Hy & -> & _). exact Hy.
  - destruct (Hpx 0%nat 1%nat (Np.of_int float32 9) eq_refl eq_refl) as [_ H1].
    destruct (H1 eq_refl eq_refl) as (y & Hy & -> & _). exact Hy.
Defined.

Lemma ndwi_of_a_single_band_witness :
  get2 (ndwi [[Np.of_int float32 7]] [[S754_zero false]]) 0 0
    = Some (Np.of_int float32 1)
  ∧ get2 (ndwi [[S754_zero false]] [[Np.of_int float32 7]]) 0 0
    = Some (Np.of_int float32 (-1)).
Proof.
  split.
  - apply (ndwi_of_a_single_band [[Np.of_int float32 7]] [[S754_zero false]] 0 0
             false 14680064 (-21) false); reflexivity.
  - apply (ndwi_of_a_single_band [[S754_zero false]] [[Np.of_int float32 7]] 0 0
             false 14680064 (-21) false); reflexivity.
Defined.

Lemma water_detection_reads_four_bands_witness :
  highlight_water_bodies (Linear.numpy float32) (Some (Returned Sample.shore))
    threshold_0_2
  = highlight_water_bodies (Linear.numpy float32)
      (Some (Returned Edge.shore_other)) threshold_0_2.
Proof.
  apply (water_detection_reads_four_bands (Linear.numpy float32) Sample.shore
           Edge.shore_other threshold_0_2).
  - vm_compute. lia.
  - vm_compute. lia.
  - intros k Hk.
    apply elem_of_cons in Hk as [-> | Hk]; [reflexivity|].
    apply elem_of_cons in Hk as [-> | Hk]; [reflexivity|].
    apply elem_of_cons in Hk as [-> | Hk]; [reflexivity|].
    apply elem_of_cons in Hk as [-> | Hk]; [reflexivity|].
    by apply elem_of_nil in Hk.
Defined.

Lemma all_water_returns_highlight_witness :
  highlight_water_bodies (Linear.numpy float32) (Some (Returned Sample.shore))
    (Np.of_int float32 (-1))
  = Returned (full 1 2 (60, 130, 255)).
Proof.
  apply (all_water_returns_highlight (Linear.numpy float32) Sample.shore 1 2
           (Np.of_int float32 (-1)) [[(0, 0, 0); (255, 0, 255)]]
           [[S754_zero false; Np.divide float32 (Np.of_int float32 4)
                                (Np.of_int float32 10)]]).
  - repeat constructor.
  - vm_compute. lia.
  - reflexivity.
  - reflexivity.
  - intros i j v Hv.
    destruct i as [|[|i]]; try discriminate Hv.
    destruct j as [|[|[|j]]]; try discriminate Hv;
      injection Hv as <-; reflexivity.
Defined.
